(** * Metadata access layer of go-vcloud-director (govcd/metadata_v2.go)

    A shallow embedding of the generic private functions of
    [metadata_v2.go] ([getMetadataByKey], [getMetadata], [addMetadata],
    [mergeAllMetadata], [deleteMetadata] and their "AndWait" wrappers)
    and of the methods of [AdminVdc], [OrgVDCNetwork], [VCDClient] and
    [OpenApiOrgVdcNetwork].

    The functions talk to two collaborators that live outside the file:
    the HTTP execution client and the [Task] handle.  They are modelled
    as a state monad over the state of the remote director; every call
    to a collaborator is appended to a log, so that what a function
    sends, and how often, can be stated and proved.  A run either
    returns or panics: the functions that write dereference the URL
    that [urlParseRequestURI] hands back, which is nil for an href it
    does not accept. *)

From Stdlib Require Import String Ascii List Bool Arith Lia.
From stdpp Require Import base option list gmap fin_maps strings.

(** ** Go strings *)

Module strings.

(** [strings.HasSuffix]:
    [len(s) >= len(suffix) && s[len(s)-len(suffix):] == suffix]. *)
Definition HasSuffix (s suffix : string) : bool :=
  (String.length suffix <=? String.length s)%nat
  && String.eqb
       (substring (String.length s - String.length suffix)
                  (String.length suffix) s)
       suffix.

(** [strings.Contains]: [substr] occurs somewhere within [s]. *)
Fixpoint Contains (s substr : string) : bool :=
  String.prefix substr s
  || match s with
     | EmptyString => false
     | String _ s' => Contains s' substr
     end.

End strings.

(** ** Go errors

    An [error] is an interface value; the code observes whether it is
    nil ([None] below) and its [Error()] text.  [fmt.Errorf] with no
    [%w] verb returns a fresh value that keeps no link to its
    arguments; an error made by a collaborator is some other dynamic
    value, identified here by its text. *)

Inductive error : Type :=
| collaborator_error (msg : string)
| fmt_error (msg : string).

Definition Error (e : error) : string :=
  match e with
  | collaborator_error msg => msg
  | fmt_error msg => msg
  end.

(** ** net/http and net/url *)

Module http.
Definition MethodGet : string := "GET".
Definition MethodPut : string := "PUT".
Definition MethodPost : string := "POST".
Definition MethodDelete : string := "DELETE".
End http.

Module URL.

(** The fields of [url.URL] that say where a request goes.  The code
    only ever assigns [Path]. *)
Record t : Type := Build {
  Scheme : string;
  Host : string;
  Path : string;
  RawQuery : string
}.

(** [u.Path += suffix] *)
Definition add_Path (u : t) (suffix : string) : t :=
  {| Scheme := Scheme u;
     Host := Host u;
     Path := Path u +:+ suffix;
     RawQuery := RawQuery u |}.

End URL.

(** ** Package types/v56: the structures the payloads are made of

    Pointers are options ([None] is nil). *)

Module MetadataTypedValue.
Record t : Type := Build { XsiType : string; Value : string }.
End MetadataTypedValue.

Module MetadataDomainTag.
Record t : Type := Build { Visibility : string; Domain : string }.
End MetadataDomainTag.

Module MetadataValue.
Record t : Type := Build {
  Xmlns : string;
  Xsi : string;
  TypedValue : option MetadataTypedValue.t;
  Domain : option MetadataDomainTag.t
}.
(** [&types.MetadataValue{}] *)
Definition zero : t :=
  {| Xmlns := EmptyString; Xsi := EmptyString; TypedValue := None; Domain := None |}.
End MetadataValue.

Module MetadataEntry.
Record t : Type := Build {
  Xmlns : string;
  Xsi : string;
  Key : string;
  TypedValue : option MetadataTypedValue.t;
  Domain : option MetadataDomainTag.t
}.
End MetadataEntry.

Module Metadata.
Record t : Type := Build {
  Xmlns : string;
  Xsi : string;
  MetadataEntry : list MetadataEntry.t
}.
(** [&types.Metadata{}] *)
Definition zero : t := {| Xmlns := EmptyString; Xsi := EmptyString; MetadataEntry := [] |}.
End Metadata.

(** The [payload interface{}] argument of a request. *)
Inductive Payload : Type :=
| payload_nil
| payload_MetadataValue (v : MetadataValue.t)
| payload_Metadata (m : Metadata.t).

(** The arguments of [ExecuteRequest] / [ExecuteTaskRequest]. *)
Record Request : Type := {
  pathURL : string;
  requestType : string;
  contentType : string;
  errorMessage : string;
  payload : Payload
}.

(** ** What the file uses but does not define

    Constants of package [types], the URL helpers of [api.go], Go's map
    iteration, and the two collaborators.  Every theorem below holds
    for all of them. *)

Class External : Type := {
  (* types/v56/constants.go *)
  XMLNamespaceVCloud : string;
  XMLNamespaceXSI : string;
  MimeMetaData : string;
  MimeMetaDataValue : string;
  MetadataReadWriteVisibility : string;
  (* api.go and net/url; [urlParseRequestURI] returns a [*url.URL],
     nil ([None]) for an href that [url.ParseRequestURI] rejects *)
  urlParseRequestURI : string -> option URL.t;
  URL_String : URL.t -> string;
  getAdminURL : string -> string;
  (* the remote director, the HTTP client and the task handle *)
  World : Type;
  Client : Type;
  Task : Type;
  serve_ExecuteRequest_MetadataValue :
    Client -> Request -> MetadataValue.t -> World ->
    (MetadataValue.t * option error) * World;
  serve_ExecuteRequest_Metadata :
    Client -> Request -> Metadata.t -> World ->
    (Metadata.t * option error) * World;
  serve_ExecuteTaskRequest :
    Client -> Request -> World -> (Task * option error) * World;
  serve_WaitTaskCompletion : Task -> World -> option error * World;
  (* the order in which [range] visits a map is chosen by the runtime *)
  maprange : gmap string MetadataValue.t -> World ->
             list (string * MetadataValue.t);
  maprange_Permutation :
    forall m w, maprange m w ≡ₚ map_to_list m
}.

(** ** Runs: results, panics and the log of calls *)

(** How a call ends: it returns, or it panics and the panic unwinds
    through every caller (nothing in the file recovers). *)
Inductive outcome (A : Type) : Type :=
| returned (a : A)
| panicked.

Arguments returned {A} a.
Arguments panicked {A}.

Section Layer.

Context `{Ext : External}.

Inductive Call : Type :=
| call_ExecuteRequest (client : Client) (r : Request)
| call_ExecuteTaskRequest (client : Client) (r : Request)
| call_WaitTaskCompletion (task : Task).

Record State : Type := {
  world : World;
  calls : list Call
}.

Definition M (A : Type) : Type := State -> outcome A * State.

Definition ret {A} (a : A) : M A := fun s => (returned a, s).

Definition panic {A} : M A := fun s => (panicked, s).

Definition bind {A B} (m : M A) (k : A -> M B) : M B :=
  fun s =>
    match m s with
    | (returned a, s') => k a s'
    | (panicked, s') => (panicked, s')
    end.

(** Following a pointer: a nil pointer dereference panics. *)
Definition deref {A} (p : option A) : M A :=
  match p with
  | Some a => ret a
  | None => panic
  end.

Definition result {A} (m : M A) (s : State) : outcome A := fst (m s).
Definition after {A} (m : M A) (s : State) : State := snd (m s).

(** The calls a run adds to the log. *)
Definition sent {A} (m : M A) (s : State) : list Call :=
  drop (length (calls s)) (calls (after m s)).

(** The URL of a logged request; waiting on a task has none. *)
Definition call_pathURL (c : Call) : option string :=
  match c with
  | call_ExecuteRequest _ r => Some (pathURL r)
  | call_ExecuteTaskRequest _ r => Some (pathURL r)
  | call_WaitTaskCompletion _ => None
  end.

Definition urls (cs : list Call) : list string := omap call_pathURL cs.

End Layer.

Notation "'let*' x ':=' m 'in' k" := (bind m (fun x => k))
  (at level 10, x pattern, m at level 100, k at level 200).

(** ** The generic private functions *)

Section Generic.

Context `{Ext : External}.

(** [client.ExecuteRequest(..., payload, out)] with [out] a
    [*types.MetadataValue]: the response is decoded into [out]. *)
Definition ExecuteRequest_MetadataValue (client : Client)
    (pathURL requestType contentType errorMessage : string)
    (payload : Payload) (out : MetadataValue.t)
  : M (MetadataValue.t * option error) :=
  fun s =>
    let r := Build_Request pathURL requestType contentType errorMessage
                           payload in
    let '(res, w) :=
      serve_ExecuteRequest_MetadataValue client r out (world s) in
    (returned res,
     {| world := w; calls := calls s ++ [call_ExecuteRequest client r] |}).

(** The same with [out] a [*types.Metadata]. *)
Definition ExecuteRequest_Metadata (client : Client)
    (pathURL requestType contentType errorMessage : string)
    (payload : Payload) (out : Metadata.t)
  : M (Metadata.t * option error) :=
  fun s =>
    let r := Build_Request pathURL requestType contentType errorMessage
                           payload in
    let '(res, w) := serve_ExecuteRequest_Metadata client r out (world s) in
    (returned res,
     {| world := w; calls := calls s ++ [call_ExecuteRequest client r] |}).

(** [client.ExecuteTaskRequest(...)] *)
Definition ExecuteTaskRequest (client : Client)
    (pathURL requestType contentType errorMessage : string)
    (payload : Payload)
  : M (Task * option error) :=
  fun s =>
    let r := Build_Request pathURL requestType contentType errorMessage
                           payload in
    let '(res, w) := serve_ExecuteTaskRequest client r (world s) in
    (returned res,
     {| world := w; calls := calls s ++ [call_ExecuteTaskRequest client r] |}).

(** [task.WaitTaskCompletion()] *)
Definition WaitTaskCompletion (task : Task) : M (option error) :=
  fun s =>
    let '(err, w) := serve_WaitTaskCompletion task (world s) in
    (returned err,
     {| world := w; calls := calls s ++ [call_WaitTaskCompletion task] |}).

(** [for key, value := range metadata]: the items in the order the
    runtime picks. *)
Definition range (metadata : gmap string MetadataValue.t)
  : M (list (string * MetadataValue.t)) :=
  fun s => (returned (maprange metadata (world s)), s).

Definition getMetadataByKey (client : Client) (requestUri key : string)
    (isSystem : bool) : M (MetadataValue.t * option error) :=
  let metadata := MetadataValue.zero in
  let href := requestUri +:+ "/metadata/" in
  let href := if isSystem then href +:+ "SYSTEM/" else href in
  let* (metadata, err) :=
    ExecuteRequest_MetadataValue client (href +:+ key) http.MethodGet
      MimeMetaData
      ("error retrieving metadata by key " +:+ key +:+ ": %s")
      payload_nil metadata in
  ret (metadata, err).

Definition getMetadata (client : Client) (requestUri : string)
  : M (Metadata.t * option error) :=
  let metadata := Metadata.zero in
  let* (metadata, err) :=
    ExecuteRequest_Metadata client (requestUri +:+ "/metadata/")
      http.MethodGet MimeMetaData "error retrieving metadata: %s"
      payload_nil metadata in
  ret (metadata, err).

(** [fmt.Errorf("error adding metadata with key %s: visibility cannot
    be %s when domain is %s: %s", key, visibility, domain, err)] *)
Definition addMetadata_Errorf (key visibility domain : string) (err : error)
  : error :=
  fmt_error ("error adding metadata with key " +:+ key
             +:+ ": visibility cannot be " +:+ visibility
             +:+ " when domain is " +:+ domain
             +:+ ": " +:+ Error err).

(** [apiEndpoint] is the pointer that [urlParseRequestURI] returned;
    [apiEndpoint.Path += ...] follows it.  [newMetadata.Domain] points
    to a [MetadataDomainTag]; the tag is kept in [domainTag] while the
    branches assign its fields, and the value that is sent holds it. *)
Definition addMetadata (client : Client)
    (requestUri key value typedValue visibility : string) (isSystem : bool)
  : M (Task * option error) :=
  let apiEndpoint := urlParseRequestURI requestUri in
  let domainTag :=
    {| MetadataDomainTag.Visibility := visibility;
       MetadataDomainTag.Domain := "SYSTEM" |} in
  let newMetadata (domainTag : MetadataDomainTag.t) :=
    {| MetadataValue.Xmlns := XMLNamespaceVCloud;
       MetadataValue.Xsi := XMLNamespaceXSI;
       MetadataValue.TypedValue :=
         Some {| MetadataTypedValue.XsiType := typedValue;
                 MetadataTypedValue.Value := value |};
       MetadataValue.Domain := Some domainTag |} in
  let* (apiEndpoint, domainTag) :=
    if isSystem then
      let* u := deref apiEndpoint in
      ret (URL.add_Path u ("/metadata/SYSTEM/" +:+ key), domainTag)
    else
      let* u := deref apiEndpoint in
      let apiEndpoint := URL.add_Path u ("/metadata/" +:+ key) in
      let domainTag :=
        {| MetadataDomainTag.Visibility :=
             MetadataDomainTag.Visibility domainTag;
           MetadataDomainTag.Domain := "GENERAL" |} in
      let domainTag :=
        if negb (String.eqb visibility MetadataReadWriteVisibility) then
          {| MetadataDomainTag.Visibility := MetadataReadWriteVisibility;
             MetadataDomainTag.Domain := MetadataDomainTag.Domain domainTag |}
        else domainTag in
      ret (apiEndpoint, domainTag) in
  let domain := MetadataDomainTag.Visibility domainTag in
  let* (task, err) :=
    ExecuteTaskRequest client (URL_String apiEndpoint) http.MethodPut
      MimeMetaDataValue "error adding metadata: %s"
      (payload_MetadataValue (newMetadata domainTag)) in
  let err :=
    match err with
    | Some e =>
        if strings.HasSuffix (Error e) "visibility"
        then Some (addMetadata_Errorf key visibility domain e)
        else Some e
    | None => None
    end in
  ret (task, err).

Definition addMetadataAndWait (client : Client)
    (requestUri key value typedValue visibility : string) (isSystem : bool)
  : M (option error) :=
  let* (task, err) :=
    addMetadata client requestUri key value typedValue visibility isSystem in
  match err with
  | Some e => ret (Some e)
  | None => WaitTaskCompletion task
  end.

(** One turn of the loop of [mergeAllMetadata]. *)
Definition mergeAllMetadata_append (metadataToMerge : list MetadataEntry.t)
    (item : string * MetadataValue.t) : list MetadataEntry.t :=
  let '(key, value) := item in
  metadataToMerge ++
    [ {| MetadataEntry.Xmlns := XMLNamespaceVCloud;
         MetadataEntry.Xsi := XMLNamespaceXSI;
         MetadataEntry.Key := key;
         MetadataEntry.TypedValue := MetadataValue.TypedValue value;
         MetadataEntry.Domain := MetadataValue.Domain value |} ].

Definition mergeAllMetadata (client : Client) (requestUri : string)
    (metadata : gmap string MetadataValue.t) : M (Task * option error) :=
  let* items := range metadata in
  let metadataToMerge := fold_left mergeAllMetadata_append items [] in
  let newMetadata :=
    {| Metadata.Xmlns := XMLNamespaceVCloud;
       Metadata.Xsi := XMLNamespaceXSI;
       Metadata.MetadataEntry := metadataToMerge |} in
  let apiEndpoint := urlParseRequestURI requestUri in
  let* u := deref apiEndpoint in
  let apiEndpoint := URL.add_Path u "/metadata" in
  ExecuteTaskRequest client (URL_String apiEndpoint) http.MethodPost
    MimeMetaData "error adding metadata: %s" (payload_Metadata newMetadata).

Definition mergeMetadataAndWait (client : Client) (requestUri : string)
    (metadata : gmap string MetadataValue.t) : M (option error) :=
  let* (task, err) := mergeAllMetadata client requestUri metadata in
  match err with
  | Some e => ret (Some e)
  | None => WaitTaskCompletion task
  end.

Definition deleteMetadata (client : Client) (requestUri key : string)
    (isSystem : bool) : M (Task * option error) :=
  let apiEndpoint := urlParseRequestURI requestUri in
  let* apiEndpoint :=
    if isSystem then
      let* u := deref apiEndpoint in
      ret (URL.add_Path u ("/metadata/SYSTEM/" +:+ key))
    else
      let* u := deref apiEndpoint in
      ret (URL.add_Path u ("/metadata/" +:+ key)) in
  ExecuteTaskRequest client (URL_String apiEndpoint) http.MethodDelete
    EmptyString "error deleting metadata: %s" payload_nil.

Definition deleteMetadataAndWait (client : Client) (requestUri key : string)
    (isSystem : bool) : M (option error) :=
  let* (task, err) := deleteMetadata client requestUri key isSystem in
  match err with
  | Some e => ret (Some e)
  | None => WaitTaskCompletion task
  end.

(** The URL a write of this layer addresses for the resource reference
    [requestUri]: parse, extend the path, print; none when the href is
    not accepted. *)
Definition endpoint (requestUri suffix : string) : option string :=
  match urlParseRequestURI requestUri with
  | Some u => Some (URL_String (URL.add_Path u suffix))
  | None => None
  end.

(** The path suffix shared by the single-key operations. *)
Definition key_suffix (key : string) (isSystem : bool) : string :=
  if isSystem then "/metadata/SYSTEM/" +:+ key else "/metadata/" +:+ key.

(** The entry that [mergeAllMetadata] builds for one item of the map. *)
Definition merged_entry (item : string * MetadataValue.t) : MetadataEntry.t :=
  {| MetadataEntry.Xmlns := XMLNamespaceVCloud;
     MetadataEntry.Xsi := XMLNamespaceXSI;
     MetadataEntry.Key := fst item;
     MetadataEntry.TypedValue := MetadataValue.TypedValue (snd item);
     MetadataEntry.Domain := MetadataValue.Domain (snd item) |}.

(** The href is accepted and the written form of its URL is the href
    followed by the suffix: true of [net/url] when the href has no query
    and the suffix needs no escaping. *)
Definition prints_plainly (requestUri suffix : string) : Prop :=
  endpoint requestUri suffix = Some (requestUri +:+ suffix).

(** Calling an asynchronous variant and then waiting on its task, as
    the [ByHref] methods of [VCDClient] spell it out. *)
Definition then_wait (request : M (Task * option error)) : M (option error) :=
  let* (task, err) := request in
  match err with
  | Some e => ret (Some e)
  | None => WaitTaskCompletion task
  end.

(** What an "AndWait" wrapper is said to do with the [request] it wraps.
    When the request returns, one request has been sent: if it failed,
    its error comes back as it is and nothing else is called; if it
    succeeded, the wrapper is the wait on the task that came back.  When
    the request panics, nothing has been sent and the panic passes
    through the wrapper. *)
Definition waits_on (client : Client) (request : M (Task * option error))
    (wrapper : M (option error)) : Prop :=
  forall s : State,
    match request s with
    | (returned (task, Some e), s1) =>
        (exists r, sent request s = [call_ExecuteTaskRequest client r])
        /\ wrapper s = (returned (Some e), s1)
        /\ sent wrapper s = sent request s
    | (returned (task, None), s1) =>
        (exists r, sent request s = [call_ExecuteTaskRequest client r])
        /\ wrapper s = WaitTaskCompletion task s1
        /\ sent wrapper s = sent request s ++ [call_WaitTaskCompletion task]
    | (panicked, s1) =>
        sent request s = []
        /\ wrapper s = (panicked, s1)
    end.

(** A run of [request] that returns has logged one task request; a run
    that panics has logged nothing. *)
Definition sends_once (client : Client) (request : M (Task * option error))
  : Prop :=
  forall s,
    match request s with
    | (returned _, s1) =>
        exists r, calls s1 = calls s ++ [call_ExecuteTaskRequest client r]
    | (panicked, s1) => s1 = s
    end.

End Generic.

(** ** Per-resource methods

    Each resource keeps its client and the HREF of the entity it stands
    for ([adminVdc.AdminVdc.HREF], [orgVdcNetwork.OrgVDCNetwork.HREF]). *)

Module AdminVdc.
Section Methods.

Context `{Ext : External}.

Record t : Type := Build { client : Client; HREF : string }.

Definition GetMetadataByKey (adminVdc : t) (key : string) (isSystem : bool)
  : M (MetadataValue.t * option error) :=
  getMetadataByKey (client adminVdc) (HREF adminVdc) key isSystem.

Definition GetMetadata (adminVdc : t) : M (Metadata.t * option error) :=
  getMetadata (client adminVdc) (HREF adminVdc).

Definition AddMetadataEntryWithVisibilityAsync (adminVdc : t)
    (key value typedValue visibility : string) (isSystem : bool)
  : M (Task * option error) :=
  addMetadata (client adminVdc) (HREF adminVdc) key value typedValue
    visibility isSystem.

Definition AddMetadataEntryWithVisibility (adminVdc : t)
    (key value typedValue visibility : string) (isSystem : bool)
  : M (option error) :=
  addMetadataAndWait (client adminVdc) (HREF adminVdc) key value typedValue
    visibility isSystem.

Definition MergeMetadataWithMetadataValuesAsync (adminVdc : t)
    (metadata : gmap string MetadataValue.t) : M (Task * option error) :=
  mergeAllMetadata (client adminVdc) (HREF adminVdc) metadata.

Definition MergeMetadataWithMetadataValues (adminVdc : t)
    (metadata : gmap string MetadataValue.t) : M (option error) :=
  mergeMetadataAndWait (client adminVdc) (HREF adminVdc) metadata.

Definition DeleteMetadataEntryWithDomainAsync (adminVdc : t) (key : string)
    (isSystem : bool) : M (Task * option error) :=
  deleteMetadata (client adminVdc) (HREF adminVdc) key isSystem.

Definition DeleteMetadataEntryWithDomain (adminVdc : t) (key : string)
    (isSystem : bool) : M (option error) :=
  deleteMetadataAndWait (client adminVdc) (getAdminURL (HREF adminVdc)) key
    isSystem.

End Methods.
End AdminVdc.

Module OrgVDCNetwork.
Section Methods.

Context `{Ext : External}.

Record t : Type := Build { client : Client; HREF : string }.

Definition GetMetadataByKey (orgVdcNetwork : t) (key : string)
    (isSystem : bool) : M (MetadataValue.t * option error) :=
  getMetadataByKey (client orgVdcNetwork) (HREF orgVdcNetwork) key isSystem.

Definition GetMetadata (orgVdcNetwork : t) : M (Metadata.t * option error) :=
  getMetadata (client orgVdcNetwork) (HREF orgVdcNetwork).

Definition AddMetadataEntryWithVisibilityAsync (orgVdcNetwork : t)
    (key value typedValue visibility : string) (isSystem : bool)
  : M (Task * option error) :=
  addMetadata (client orgVdcNetwork) (getAdminURL (HREF orgVdcNetwork)) key
    value typedValue visibility isSystem.

Definition AddMetadataEntryWithVisibility (orgVdcNetwork : t)
    (key value typedValue visibility : string) (isSystem : bool)
  : M (option error) :=
  addMetadataAndWait (client orgVdcNetwork)
    (getAdminURL (HREF orgVdcNetwork)) key value typedValue visibility
    isSystem.

Definition MergeMetadataWithMetadataValuesAsync (orgVdcNetwork : t)
    (metadata : gmap string MetadataValue.t) : M (Task * option error) :=
  mergeAllMetadata (client orgVdcNetwork) (getAdminURL (HREF orgVdcNetwork))
    metadata.

Definition MergeMetadataWithMetadataValues (orgVdcNetwork : t)
    (metadata : gmap string MetadataValue.t) : M (option error) :=
  mergeMetadataAndWait (client orgVdcNetwork)
    (getAdminURL (HREF orgVdcNetwork)) metadata.

Definition DeleteMetadataEntryWithDomainAsync (orgVdcNetwork : t)
    (key : string) (isSystem : bool) : M (Task * option error) :=
  deleteMetadata (client orgVdcNetwork) (getAdminURL (HREF orgVdcNetwork))
    key isSystem.

Definition DeleteMetadataEntryWithDomain (orgVdcNetwork : t) (key : string)
    (isSystem : bool) : M (option error) :=
  deleteMetadataAndWait (client orgVdcNetwork)
    (getAdminURL (HREF orgVdcNetwork)) key isSystem.

End Methods.
End OrgVDCNetwork.

(** [VCDClient] embeds the client ([vcdClient.Client]); its methods take
    the href of the entity as an argument. *)

Module VCDClient.
Section Methods.

Context `{Ext : External}.

Record t : Type := Build { Client : Client }.

Definition GetMetadataByKeyAndHref (vcdClient : t) (href key : string)
    (isSystem : bool) : M (MetadataValue.t * option error) :=
  getMetadataByKey (Client vcdClient) href key isSystem.

Definition GetMetadataByHref (vcdClient : t) (href : string)
  : M (Metadata.t * option error) :=
  getMetadata (Client vcdClient) href.

Definition AddMetadataEntryWithVisibilityByHrefAsync (vcdClient : t)
    (href key value typedValue visibility : string) (isSystem : bool)
  : M (Task * option error) :=
  addMetadata (Client vcdClient) href key value typedValue visibility isSystem.

Definition AddMetadataEntryWithVisibilityByHref (vcdClient : t)
    (href key value typedValue visibility : string) (isSystem : bool)
  : M (option error) :=
  let* (task, err) :=
    AddMetadataEntryWithVisibilityByHrefAsync vcdClient href key value
      typedValue visibility isSystem in
  match err with
  | Some e => ret (Some e)
  | None => WaitTaskCompletion task
  end.

Definition MergeMetadataWithVisibilityByHrefAsync (vcdClient : t)
    (href : string) (metadata : gmap string MetadataValue.t)
  : M (Task * option error) :=
  mergeAllMetadata (Client vcdClient) href metadata.

Definition DeleteMetadataEntryWithDomainByHrefAsync (vcdClient : t)
    (href key : string) (isSystem : bool) : M (Task * option error) :=
  deleteMetadata (Client vcdClient) href key isSystem.

Definition DeleteMetadataEntryWithDomainByHref (vcdClient : t)
    (href key : string) (isSystem : bool) : M (option error) :=
  let* (task, err) :=
    DeleteMetadataEntryWithDomainByHrefAsync vcdClient href key isSystem in
  match err with
  | Some e => ret (Some e)
  | None => WaitTaskCompletion task
  end.

End Methods.
End VCDClient.

(** What the methods of [OpenApiOrgVdcNetwork] use beyond [External]:
    the base URL kept by the client ([client.VCDHREF]) and [extractUuid],
    both defined outside the file. *)

Class OpenApiExternal `{Ext : External} : Type := {
  VCDHREF : Client -> URL.t;
  extractUuid : string -> string
}.

(** [OpenApiOrgVdcNetwork] has no stored HREF: each method builds one
    from the base URL and the UUID in the network's ID
    ([openApiOrgVdcNetwork.OpenApiOrgVdcNetwork.ID]). *)

Module OpenApiOrgVdcNetwork.
Section Methods.

Context `{OExt : OpenApiExternal}.

Record t : Type := Build { client : Client; ID : string }.

(** [fmt.Sprintf("%s/network/%s", a, b)] *)
Definition Sprintf_network (a b : string) : string :=
  a +:+ "/network/" +:+ b.

(** [fmt.Sprintf("%s/admin/network/%s", a, b)] *)
Definition Sprintf_admin_network (a b : string) : string :=
  a +:+ "/admin/network/" +:+ b.

Definition GetMetadataByKey (openApiOrgVdcNetwork : t) (key : string)
    (isSystem : bool) : M (MetadataValue.t * option error) :=
  let href :=
    Sprintf_network (URL_String (VCDHREF (client openApiOrgVdcNetwork)))
      (extractUuid (ID openApiOrgVdcNetwork)) in
  getMetadataByKey (client openApiOrgVdcNetwork) href key isSystem.

Definition GetMetadata (openApiOrgVdcNetwork : t)
  : M (Metadata.t * option error) :=
  let href :=
    Sprintf_network (URL_String (VCDHREF (client openApiOrgVdcNetwork)))
      (extractUuid (ID openApiOrgVdcNetwork)) in
  getMetadata (client openApiOrgVdcNetwork) href.

Definition AddMetadataEntryWithVisibility (openApiOrgVdcNetwork : t)
    (key value typedValue visibility : string) (isSystem : bool)
  : M (option error) :=
  let href :=
    Sprintf_admin_network
      (URL_String (VCDHREF (client openApiOrgVdcNetwork)))
      (extractUuid (ID openApiOrgVdcNetwork)) in
  let* (task, err) :=
    addMetadata (client openApiOrgVdcNetwork) href key value typedValue
      visibility isSystem in
  match err with
  | Some e => ret (Some e)
  | None => WaitTaskCompletion task
  end.

Definition MergeMetadataWithMetadataValues (openApiOrgVdcNetwork : t)
    (metadata : gmap string MetadataValue.t) : M (option error) :=
  let href :=
    Sprintf_admin_network
      (URL_String (VCDHREF (client openApiOrgVdcNetwork)))
      (extractUuid (ID openApiOrgVdcNetwork)) in
  let* (task, err) :=
    mergeAllMetadata (client openApiOrgVdcNetwork) href metadata in
  match err with
  | Some e => ret (Some e)
  | None => WaitTaskCompletion task
  end.

Definition DeleteMetadataEntryWithDomain (openApiOrgVdcNetwork : t)
    (key : string) (isSystem : bool) : M (option error) :=
  let href :=
    Sprintf_admin_network
      (URL_String (VCDHREF (client openApiOrgVdcNetwork)))
      (extractUuid (ID openApiOrgVdcNetwork)) in
  let* (task, err) :=
    deleteMetadata (client openApiOrgVdcNetwork) href key isSystem in
  match err with
  | Some e => ret (Some e)
  | None => WaitTaskCompletion task
  end.

End Methods.
End OpenApiOrgVdcNetwork.

(** ** A concrete director

    One instance of [External], used to run the functions on concrete
    inputs.  Its URL helpers handle the hrefs that are absolute paths
    ("/api/vdc/7", with or without a query): such an href is accepted
    and printed back as it is.  Every other href is turned down, as
    [url.ParseRequestURI] turns down the empty href and a relative one;
    hrefs with a scheme and characters that need escaping are outside
    what this instance is used for.  Its director accepts every request
    except a metadata value that pairs the SYSTEM domain with READWRITE
    visibility, to which it answers with the error text quoted in
    [addMetadata]. *)

Module Sample.

(** The text before the first "?" and, when there is one, the text
    after it. *)
Fixpoint cut_query (s : string) : string * string :=
  match s with
  | EmptyString => (EmptyString, EmptyString)
  | String c rest =>
      if Ascii.eqb c "?" then (EmptyString, rest)
      else let '(path, query) := cut_query rest in (String c path, query)
  end.

Definition parse (href : string) : option URL.t :=
  if String.prefix "/" href then
    let '(path, query) := cut_query href in
    Some {| URL.Scheme := EmptyString; URL.Host := EmptyString;
            URL.Path := path; URL.RawQuery := query |}
  else None.

Definition print (u : URL.t) : string :=
  match URL.RawQuery u with
  | EmptyString => URL.Scheme u +:+ URL.Host u +:+ URL.Path u
  | q => URL.Scheme u +:+ URL.Host u +:+ URL.Path u +:+ "?" +:+ q
  end.

Fixpoint substitute_admin (href : string) : string :=
  match href with
  | EmptyString => EmptyString
  | String c rest =>
      if String.prefix "/api/" href
      then "/api/admin/" +:+ substring 5 (String.length href - 5) href
      else String c (substitute_admin rest)
  end.

(** Modelled from the spec: [getAdminURL] of api.go, which is not part
    of the verified file: "an /admin/ path segment substitution before
    the /metadata suffix". *)
Definition admin_url (href : string) : string :=
  if strings.Contains href "/api/admin/" then href
  else substitute_admin href.

Definition rejected (r : Request) : bool :=
  match payload r with
  | payload_MetadataValue v =>
      match MetadataValue.Domain v with
      | Some d =>
          String.eqb (MetadataDomainTag.Domain d) "SYSTEM"
          && String.eqb (MetadataDomainTag.Visibility d) "READWRITE"
      | None => false
      end
  | _ => false
  end.

(** The world counts the tasks accepted so far; a task is its number. *)
Definition serve_task (_ : unit) (r : Request) (w : nat)
  : (nat * option error) * nat :=
  if rejected r then
    ((0, Some (collaborator_error
                 "error adding metadata: API Error: 500: [ 4f1c ] visibility")),
     w)
  else ((S w, None), S w).

#[export] Instance director : External := {|
  XMLNamespaceVCloud := "http://www.vmware.com/vcloud/v1.5";
  XMLNamespaceXSI := "http://www.w3.org/2001/XMLSchema-instance";
  MimeMetaData := "application/vnd.vmware.vcloud.metadata+xml";
  MimeMetaDataValue := "application/vnd.vmware.vcloud.metadata.value+xml";
  MetadataReadWriteVisibility := "READWRITE";
  urlParseRequestURI := parse;
  URL_String := print;
  getAdminURL := admin_url;
  World := nat;
  Client := unit;
  Task := nat;
  serve_ExecuteRequest_MetadataValue := fun _ _ out w => ((out, None), w);
  serve_ExecuteRequest_Metadata := fun _ _ out w => ((out, None), w);
  serve_ExecuteTaskRequest := serve_task;
  serve_WaitTaskCompletion := fun _ w => (None, w);
  maprange := fun m _ => map_to_list m;
  maprange_Permutation := fun m _ => reflexivity (map_to_list m)
|}.

Definition start : State := {| world := 0; calls := [] |}.

(** A map for [mergeAllMetadata]. *)
Definition env_prod : MetadataValue.t :=
  {| MetadataValue.Xmlns := EmptyString;
     MetadataValue.Xsi := EmptyString;
     MetadataValue.TypedValue :=
       Some {| MetadataTypedValue.XsiType := "MetadataStringValue";
               MetadataTypedValue.Value := "prod" |};
     MetadataValue.Domain :=
       Some {| MetadataDomainTag.Visibility := "READWRITE";
               MetadataDomainTag.Domain := "GENERAL" |} |}.

Definition owner_ops : MetadataValue.t :=
  {| MetadataValue.Xmlns := EmptyString;
     MetadataValue.Xsi := EmptyString;
     MetadataValue.TypedValue :=
       Some {| MetadataTypedValue.XsiType := "MetadataStringValue";
               MetadataTypedValue.Value := "ops" |};
     MetadataValue.Domain :=
       Some {| MetadataDomainTag.Visibility := "PRIVATE";
               MetadataDomainTag.Domain := "SYSTEM" |} |}.

Definition two_items : gmap string MetadataValue.t :=
  <["env" := env_prod]> (<["owner" := owner_ops]> ∅).

(** A vDC and a network whose HREFs [admin_url] rewrites. *)
Definition adminVdc : AdminVdc.t := @AdminVdc.Build director tt "/api/vdc/7".

Definition orgVdcNetwork : OrgVDCNetwork.t :=
  @OrgVDCNetwork.Build director tt "/api/network/3".



End Sample.

(** The concrete director, extended for [OpenApiOrgVdcNetwork]: the base
    URL is "/api", and the UUID of an ID is its first run of
    8-4-4-4-12 lower-case hexadecimal digits, empty when it has none. *)

Module SampleOpenApi.

Definition is_hex (c : ascii) : bool :=
  let n := nat_of_ascii c in
  ((48 <=? n) && (n <=? 57) || (97 <=? n) && (n <=? 102))%nat.

(** What is left of [s] after [n] hexadecimal digits. *)
Fixpoint hex_run (n : nat) (s : string) : option string :=
  match n with
  | 0 => Some s
  | S n' =>
      match s with
      | String c rest => if is_hex c then hex_run n' rest else None
      | EmptyString => None
      end
  end.

(** What is left of [s] after [n] hexadecimal digits and a dash. *)
Definition hex_group (n : nat) (s : string) : option string :=
  match hex_run n s with
  | Some (String c rest) => if Ascii.eqb c "-" then Some rest else None
  | _ => None
  end.

Definition starts_with_uuid (s : string) : bool :=
  match hex_group 8 s with
  | Some s1 =>
      match hex_group 4 s1 with
      | Some s2 =>
          match hex_group 4 s2 with
          | Some s3 =>
              match hex_group 4 s3 with
              | Some s4 =>
                  match hex_run 12 s4 with
                  | Some _ => true
                  | None => false
                  end
              | None => false
              end
          | None => false
          end
      | None => false
      end
  | None => false
  end.

Fixpoint first_uuid (id : string) : string :=
  if starts_with_uuid id then substring 0 36 id
  else match id with
       | EmptyString => EmptyString
       | String _ rest => first_uuid rest
       end.

#[export] Instance director : @OpenApiExternal Sample.director := {|
  VCDHREF := fun _ =>
    {| URL.Scheme := EmptyString; URL.Host := EmptyString;
       URL.Path := "/api"; URL.RawQuery := EmptyString |};
  extractUuid := first_uuid
|}.

Definition network : OpenApiOrgVdcNetwork.t :=
  @OpenApiOrgVdcNetwork.Build Sample.director tt
    "urn:vcloud:network:6bc27a4e-3b1c-4f0e-9d2a-0123456789ab".

Definition vcdClient : VCDClient.t := @VCDClient.Build Sample.director tt.

End SampleOpenApi.

(** * Properties *)

(** ** Facts about strings *)

Section StringFacts.

Example HasSuffix_director_error :
  strings.HasSuffix "API Error: 500: [ 4f1c ] visibility" "visibility" = true.
Proof. reflexivity. Qed.

Example HasSuffix_longer_suffix :
  strings.HasSuffix "bility" "visibility" = false.
Proof. reflexivity. Qed.

Example HasSuffix_inner_occurrence :
  strings.HasSuffix "visibility is wrong" "visibility" = false.
Proof. reflexivity. Qed.

Example Contains_inner_occurrence :
  strings.Contains "when domain is SYSTEM: x" "SYSTEM" = true.
Proof. reflexivity. Qed.

Lemma append_String (a : ascii) (s t : string) :
  String a s +:+ t = String a (s +:+ t).
Proof. reflexivity. Qed.

Lemma list_ascii_of_string_append (s t : string) :
  list_ascii_of_string (s +:+ t)
  = list_ascii_of_string s ++ list_ascii_of_string t.
Proof.
  induction s as [|a s IH]; [reflexivity|].
  rewrite append_String. simpl. rewrite IH. reflexivity.
Qed.

Lemma list_ascii_of_string_inj (s t : string) :
  list_ascii_of_string s = list_ascii_of_string t -> s = t.
Proof.
  intros H. rewrite <- (string_of_list_ascii_of_string s).
  rewrite H. apply string_of_list_ascii_of_string.
Qed.

Lemma append_assoc (s t u : string) : (s +:+ t) +:+ u = s +:+ t +:+ u.
Proof.
  induction s as [|a s IH]; [reflexivity|].
  rewrite !append_String, IH. reflexivity.
Qed.

Lemma append_inv_tail (s t suffix : string) :
  s +:+ suffix = t +:+ suffix -> s = t.
Proof.
  intros H. apply list_ascii_of_string_inj.
  apply (f_equal list_ascii_of_string) in H.
  rewrite !list_ascii_of_string_append in H.
  exact (app_inv_tail _ _ _ H).
Qed.

Lemma prefix_append (s t : string) : String.prefix s (s +:+ t) = true.
Proof.
  induction s as [|a s IH]; [destruct t; reflexivity|].
  rewrite append_String. simpl.
  destruct (ascii_dec a a); [exact IH | congruence].
Qed.

Lemma Contains_prefix (s substr : string) :
  String.prefix substr s = true -> strings.Contains s substr = true.
Proof.
  intros H. destruct s as [|a s].
  - change (String.prefix substr EmptyString || false = true).
    rewrite H. reflexivity.
  - change (String.prefix substr (String a s) || strings.Contains s substr
            = true).
    rewrite H. reflexivity.
Qed.

Lemma Contains_append_r (s t substr : string) :
  strings.Contains t substr = true ->
  strings.Contains (s +:+ t) substr = true.
Proof.
  intros H. induction s as [|a s IH]; [exact H|].
  rewrite append_String.
  change (String.prefix substr (String a (s +:+ t))
          || strings.Contains (s +:+ t) substr = true).
  rewrite IH. apply orb_true_r.
Qed.

Lemma Contains_infix (s substr t : string) :
  strings.Contains (s +:+ substr +:+ t) substr = true.
Proof. apply Contains_append_r, Contains_prefix, prefix_append. Qed.

End StringFacts.

(** ** More facts about strings *)

Section SuffixFacts.

Lemma length_append (s t : string) :
  String.length (s +:+ t) = String.length s + String.length t.
Proof.
  induction s as [|a s IH]; [reflexivity|].
  rewrite append_String. simpl. rewrite IH. reflexivity.
Qed.

Lemma append_nil_r (s : string) : s +:+ EmptyString = s.
Proof.
  induction s as [|a s IH]; [reflexivity|].
  rewrite append_String, IH. reflexivity.
Qed.

Lemma substring_whole (s : string) : substring 0 (String.length s) s = s.
Proof. induction s as [|a s IH]; simpl; [reflexivity | rewrite IH; reflexivity]. Qed.

Lemma substring_skip (p t : string) (n : nat) :
  substring (String.length p) n (p +:+ t) = substring 0 n t.
Proof.
  induction p as [|a p IH]; [reflexivity|].
  rewrite append_String. simpl. exact IH.
Qed.

Lemma substring_split (n : nat) (s : string) :
  n <= String.length s ->
  s = substring 0 n s +:+ substring n (String.length s - n) s.
Proof.
  revert s. induction n as [|n IH]; intros s Hn.
  - rewrite Nat.sub_0_r, substring_whole. destruct s; reflexivity.
  - destruct s as [|a s]; simpl in Hn; [lia|].
    simpl. rewrite append_String. f_equal. apply IH. lia.
Qed.

(** [strings.HasSuffix] holds exactly of the strings that are some
    prefix followed by the suffix. *)
Lemma HasSuffix_spec (s suffix : string) :
  strings.HasSuffix s suffix = true <-> exists p, s = p +:+ suffix.
Proof.
  unfold strings.HasSuffix. rewrite andb_true_iff, Nat.leb_le, String.eqb_eq.
  split.
  - intros [Hlen Hsub].
    exists (substring 0 (String.length s - String.length suffix) s).
    rewrite (substring_split (String.length s - String.length suffix) s) at 1
      by lia.
    f_equal. rewrite <- Hsub at 3. f_equal. lia.
  - intros [p ->]. rewrite length_append. split; [lia|].
    replace (String.length p + String.length suffix - String.length suffix)
      with (String.length p) by lia.
    rewrite substring_skip. apply substring_whole.
Qed.

End SuffixFacts.

Section LengthFacts.

Lemma prefix_refl (s : string) : String.prefix s s = true.
Proof.
  induction s as [|a s IH]; [reflexivity|]. simpl.
  destruct (ascii_dec a a); [exact IH | congruence].
Qed.




Lemma read_url_suffix (href key : string) (isSystem : bool) :
  (if isSystem then (href +:+ "/metadata/") +:+ "SYSTEM/"
   else href +:+ "/metadata/") +:+ key
  = href +:+ (if isSystem then "/metadata/SYSTEM/" +:+ key
              else "/metadata/" +:+ key).
Proof. destruct isSystem; rewrite !append_assoc; reflexivity. Qed.

Lemma network_hrefs_differ (base uuid : string) :
  base +:+ "/network/" +:+ uuid <> base +:+ "/admin/network/" +:+ uuid.
Proof.
  intros H. apply (inj (String.append base)) in H.
  rewrite !append_String in H. discriminate H.
Qed.

End LengthFacts.


Section Properties.

Context `{Ext : External}.

(** ** What each generic function does in one run *)

Lemma sent_log {A} (m : M A) (s : State) (cs : list Call) :
  calls (after m s) = calls s ++ cs -> sent m s = cs.
Proof. intros H. unfold sent. rewrite H. apply drop_app_length. Qed.

Lemma sent_nothing {A} (m : M A) (s : State) (o : outcome A) :
  m s = (o, s) -> sent m s = [].
Proof.
  intros H. apply sent_log. unfold after. rewrite H. simpl.
  symmetry. apply app_nil_r.
Qed.

Lemma run_ExecuteTaskRequest client a b c d p s :
  ExecuteTaskRequest client a b c d p s
  = (returned
       (fst (serve_ExecuteTaskRequest client (Build_Request a b c d p)
               (world s))),
     {| world :=
          snd (serve_ExecuteTaskRequest client (Build_Request a b c d p)
                 (world s));
        calls :=
          calls s ++ [call_ExecuteTaskRequest client (Build_Request a b c d p)]
     |}).
Proof.
  unfold ExecuteTaskRequest.
  destruct (serve_ExecuteTaskRequest _ _ _) as [res w]; reflexivity.
Qed.

Lemma run_addMetadata client href u key value typedValue visibility isSystem s :
  urlParseRequestURI href = Some u ->
  let r :=
    {| pathURL := URL_String (URL.add_Path u (key_suffix key isSystem));
       requestType := http.MethodPut;
       contentType := MimeMetaDataValue;
       errorMessage := "error adding metadata: %s";
       payload :=
         payload_MetadataValue
           {| MetadataValue.Xmlns := XMLNamespaceVCloud;
              MetadataValue.Xsi := XMLNamespaceXSI;
              MetadataValue.TypedValue :=
                Some {| MetadataTypedValue.XsiType := typedValue;
                        MetadataTypedValue.Value := value |};
              MetadataValue.Domain :=
                Some {| MetadataDomainTag.Visibility :=
                          if isSystem then visibility
                          else MetadataReadWriteVisibility;
                        MetadataDomainTag.Domain :=
                          if isSystem then "SYSTEM" else "GENERAL" |} |} |} in
  addMetadata client href key value typedValue visibility isSystem s
  = (returned
       (fst (fst (serve_ExecuteTaskRequest client r (world s))),
        match snd (fst (serve_ExecuteTaskRequest client r (world s))) with
        | Some e =>
            if strings.HasSuffix (Error e) "visibility"
            then Some (addMetadata_Errorf key visibility
                         (if isSystem then visibility
                          else MetadataReadWriteVisibility) e)
            else Some e
        | None => None
        end),
     {| world := snd (serve_ExecuteTaskRequest client r (world s));
        calls := calls s ++ [call_ExecuteTaskRequest client r] |}).
Proof.
  intros Hparse r. subst r.
  unfold addMetadata, bind, ret, deref, key_suffix, ExecuteTaskRequest.
  rewrite Hparse.
  destruct isSystem; simpl.
  - destruct (serve_ExecuteTaskRequest _ _ _) as [[task err] w]; reflexivity.
  - destruct (String.eqb visibility MetadataReadWriteVisibility) eqn:Hvis;
      simpl.
    + apply String.eqb_eq in Hvis; subst visibility.
      destruct (serve_ExecuteTaskRequest _ _ _) as [[task err] w]; reflexivity.
    + destruct (serve_ExecuteTaskRequest _ _ _) as [[task err] w]; reflexivity.
Qed.

Lemma run_addMetadata_nil client href key value typedValue visibility isSystem
    s :
  urlParseRequestURI href = None ->
  addMetadata client href key value typedValue visibility isSystem s
  = (panicked, s).
Proof.
  intros Hparse. unfold addMetadata, bind, deref. rewrite Hparse.
  destruct isSystem; reflexivity.
Qed.

Lemma log_addMetadata client href u key value typedValue visibility isSystem s :
  urlParseRequestURI href = Some u ->
  calls (after (addMetadata client href key value typedValue visibility
                  isSystem) s)
  = calls s ++
    [call_ExecuteTaskRequest client
       {| pathURL := URL_String (URL.add_Path u (key_suffix key isSystem));
          requestType := http.MethodPut;
          contentType := MimeMetaDataValue;
          errorMessage := "error adding metadata: %s";
          payload :=
            payload_MetadataValue
              {| MetadataValue.Xmlns := XMLNamespaceVCloud;
                 MetadataValue.Xsi := XMLNamespaceXSI;
                 MetadataValue.TypedValue :=
                   Some {| MetadataTypedValue.XsiType := typedValue;
                           MetadataTypedValue.Value := value |};
                 MetadataValue.Domain :=
                   Some {| MetadataDomainTag.Visibility :=
                             if isSystem then visibility
                             else MetadataReadWriteVisibility;
                           MetadataDomainTag.Domain :=
                             if isSystem then "SYSTEM" else "GENERAL" |} |} |}].
Proof.
  intros Hparse. unfold after.
  rewrite (run_addMetadata _ _ _ _ _ _ _ _ _ Hparse). reflexivity.
Qed.

Lemma run_deleteMetadata client href u key isSystem s :
  urlParseRequestURI href = Some u ->
  deleteMetadata client href key isSystem s
  = ExecuteTaskRequest client
      (URL_String (URL.add_Path u (key_suffix key isSystem)))
      http.MethodDelete EmptyString "error deleting metadata: %s" payload_nil s.
Proof.
  intros Hparse. unfold deleteMetadata, bind, ret, deref, key_suffix.
  rewrite Hparse. destruct isSystem; reflexivity.
Qed.

Lemma run_deleteMetadata_nil client href key isSystem s :
  urlParseRequestURI href = None ->
  deleteMetadata client href key isSystem s = (panicked, s).
Proof.
  intros Hparse. unfold deleteMetadata, bind, deref. rewrite Hparse.
  destruct isSystem; reflexivity.
Qed.

Lemma log_deleteMetadata client href u key isSystem s :
  urlParseRequestURI href = Some u ->
  calls (after (deleteMetadata client href key isSystem) s)
  = calls s ++
    [call_ExecuteTaskRequest client
       {| pathURL := URL_String (URL.add_Path u (key_suffix key isSystem));
          requestType := http.MethodDelete;
          contentType := EmptyString;
          errorMessage := "error deleting metadata: %s";
          payload := payload_nil |}].
Proof.
  intros Hparse. unfold after.
  rewrite (run_deleteMetadata _ _ _ _ _ _ Hparse), run_ExecuteTaskRequest.
  reflexivity.
Qed.

Lemma fold_left_mergeAllMetadata_append items acc :
  fold_left mergeAllMetadata_append items acc = acc ++ (merged_entry <$> items).
Proof.
  revert acc. induction items as [|[key value] items IH]; intros acc; simpl.
  - symmetry. apply app_nil_r.
  - rewrite IH. rewrite <- app_assoc. reflexivity.
Qed.

Lemma run_mergeAllMetadata client href u metadata s :
  urlParseRequestURI href = Some u ->
  mergeAllMetadata client href metadata s
  = ExecuteTaskRequest client (URL_String (URL.add_Path u "/metadata"))
      http.MethodPost MimeMetaData "error adding metadata: %s"
      (payload_Metadata
         {| Metadata.Xmlns := XMLNamespaceVCloud;
            Metadata.Xsi := XMLNamespaceXSI;
            Metadata.MetadataEntry :=
              merged_entry <$> maprange metadata (world s) |})
      s.
Proof.
  intros Hparse. unfold mergeAllMetadata, bind, range, deref.
  rewrite Hparse, fold_left_mergeAllMetadata_append. reflexivity.
Qed.

Lemma run_mergeAllMetadata_nil client href metadata s :
  urlParseRequestURI href = None ->
  mergeAllMetadata client href metadata s = (panicked, s).
Proof.
  intros Hparse. unfold mergeAllMetadata, bind, range, deref.
  rewrite Hparse. reflexivity.
Qed.

Lemma log_mergeAllMetadata client href u metadata s :
  urlParseRequestURI href = Some u ->
  calls (after (mergeAllMetadata client href metadata) s)
  = calls s ++
    [call_ExecuteTaskRequest client
       {| pathURL := URL_String (URL.add_Path u "/metadata");
          requestType := http.MethodPost;
          contentType := MimeMetaData;
          errorMessage := "error adding metadata: %s";
          payload :=
            payload_Metadata
              {| Metadata.Xmlns := XMLNamespaceVCloud;
                 Metadata.Xsi := XMLNamespaceXSI;
                 Metadata.MetadataEntry :=
                   merged_entry <$> maprange metadata (world s) |} |}].
Proof.
  intros Hparse. unfold after.
  rewrite (run_mergeAllMetadata _ _ _ _ _ Hparse), run_ExecuteTaskRequest.
  reflexivity.
Qed.

Lemma log_getMetadataByKey client href key isSystem s :
  calls (after (getMetadataByKey client href key isSystem) s)
  = calls s ++
    [call_ExecuteRequest client
       {| pathURL :=
            (if isSystem then (href +:+ "/metadata/") +:+ "SYSTEM/"
             else href +:+ "/metadata/") +:+ key;
          requestType := http.MethodGet;
          contentType := MimeMetaData;
          errorMessage :=
            "error retrieving metadata by key " +:+ key +:+ ": %s";
          payload := payload_nil |}].
Proof.
  unfold after, getMetadataByKey, bind, ret, ExecuteRequest_MetadataValue.
  destruct (serve_ExecuteRequest_MetadataValue _ _ _ _) as [[out err] w].
  reflexivity.
Qed.

Lemma log_getMetadata client href s :
  calls (after (getMetadata client href) s)
  = calls s ++
    [call_ExecuteRequest client
       {| pathURL := href +:+ "/metadata/";
          requestType := http.MethodGet;
          contentType := MimeMetaData;
          errorMessage := "error retrieving metadata: %s";
          payload := payload_nil |}].
Proof.
  unfold after, getMetadata, bind, ret, ExecuteRequest_Metadata.
  destruct (serve_ExecuteRequest_Metadata _ _ _ _) as [[out err] w].
  reflexivity.
Qed.

(** ** One request at most *)

Lemma addMetadata_sends_once
    client href key value typedValue visibility isSystem :
  sends_once client
    (addMetadata client href key value typedValue visibility isSystem).
Proof.
  intros s. destruct (urlParseRequestURI href) as [u|] eqn:Hparse.
  - rewrite (run_addMetadata _ _ _ _ _ _ _ _ _ Hparse). eexists. reflexivity.
  - rewrite (run_addMetadata_nil _ _ _ _ _ _ _ _ Hparse). reflexivity.
Qed.

Lemma mergeAllMetadata_sends_once client href metadata :
  sends_once client (mergeAllMetadata client href metadata).
Proof.
  intros s. destruct (urlParseRequestURI href) as [u|] eqn:Hparse.
  - rewrite (run_mergeAllMetadata _ _ _ _ _ Hparse), run_ExecuteTaskRequest.
    eexists. reflexivity.
  - rewrite (run_mergeAllMetadata_nil _ _ _ _ Hparse). reflexivity.
Qed.

Lemma deleteMetadata_sends_once client href key isSystem :
  sends_once client (deleteMetadata client href key isSystem).
Proof.
  intros s. destruct (urlParseRequestURI href) as [u|] eqn:Hparse.
  - rewrite (run_deleteMetadata _ _ _ _ _ _ Hparse), run_ExecuteTaskRequest.
    eexists. reflexivity.
  - rewrite (run_deleteMetadata_nil _ _ _ _ _ Hparse). reflexivity.
Qed.

Lemma waits_on_request client (request : M (Task * option error)) :
  sends_once client request ->
  waits_on client request (then_wait request).
Proof.
  intros Honce s. specialize (Honce s).
  unfold sent, after, then_wait, bind, ret.
  destruct (request s) as [[[task [e|]]|] s1]; simpl.
  - destruct Honce as [r Hr]. rewrite Hr. rewrite drop_app_length.
    split; [eauto|]. split; reflexivity.
  - destruct Honce as [r Hr]. rewrite Hr. rewrite drop_app_length.
    split; [eauto|]. split; [reflexivity|].
    unfold WaitTaskCompletion.
    destruct (serve_WaitTaskCompletion _ _) as [err w]; simpl.
    rewrite Hr, <- app_assoc. apply drop_app_length.
  - subst s1. split; [|reflexivity].
    rewrite <- (app_nil_r (calls s)) at 2. apply drop_app_length.
Qed.

Lemma urls_sent_wrapper client request wrapper s :
  waits_on client request wrapper ->
  urls (sent wrapper s) = urls (sent request s).
Proof.
  intros H. specialize (H s). revert H.
  destruct (request s) as [[[task [e|]]|] s1] eqn:Hrun.
  - intros (_ & _ & ->). reflexivity.
  - intros (_ & _ & ->). unfold urls. rewrite omap_app. apply app_nil_r.
  - intros [_ Hwrapper]. unfold sent, after. rewrite Hwrapper, Hrun.
    reflexivity.
Qed.

Lemma urls_addMetadata client href u key value typedValue visibility isSystem
    s :
  urlParseRequestURI href = Some u ->
  urls (sent (addMetadata client href key value typedValue visibility
                isSystem) s)
  = [URL_String (URL.add_Path u (key_suffix key isSystem))].
Proof.
  intros Hparse.
  rewrite (sent_log _ _ _ (log_addMetadata _ _ _ _ _ _ _ _ _ Hparse)).
  reflexivity.
Qed.

Lemma urls_mergeAllMetadata client href u metadata s :
  urlParseRequestURI href = Some u ->
  urls (sent (mergeAllMetadata client href metadata) s)
  = [URL_String (URL.add_Path u "/metadata")].
Proof.
  intros Hparse.
  rewrite (sent_log _ _ _ (log_mergeAllMetadata _ _ _ _ _ Hparse)).
  reflexivity.
Qed.

Lemma urls_deleteMetadata client href u key isSystem s :
  urlParseRequestURI href = Some u ->
  urls (sent (deleteMetadata client href key isSystem) s)
  = [URL_String (URL.add_Path u (key_suffix key isSystem))].
Proof.
  intros Hparse.
  rewrite (sent_log _ _ _ (log_deleteMetadata _ _ _ _ _ _ Hparse)).
  reflexivity.
Qed.

Lemma urls_then_wait_addMetadata
    client href u key value typedValue visibility isSystem s :
  urlParseRequestURI href = Some u ->
  urls (sent (then_wait (addMetadata client href key value typedValue
                           visibility isSystem)) s)
  = [URL_String (URL.add_Path u (key_suffix key isSystem))].
Proof.
  intros Hparse.
  rewrite (urls_sent_wrapper client
             (addMetadata client href key value typedValue visibility
                isSystem)).
  - apply urls_addMetadata, Hparse.
  - apply waits_on_request, addMetadata_sends_once.
Qed.

Lemma urls_then_wait_mergeAllMetadata client href u metadata s :
  urlParseRequestURI href = Some u ->
  urls (sent (then_wait (mergeAllMetadata client href metadata)) s)
  = [URL_String (URL.add_Path u "/metadata")].
Proof.
  intros Hparse.
  rewrite (urls_sent_wrapper client (mergeAllMetadata client href metadata)).
  - apply urls_mergeAllMetadata, Hparse.
  - apply waits_on_request, mergeAllMetadata_sends_once.
Qed.

Lemma urls_then_wait_deleteMetadata client href u key isSystem s :
  urlParseRequestURI href = Some u ->
  urls (sent (then_wait (deleteMetadata client href key isSystem)) s)
  = [URL_String (URL.add_Path u (key_suffix key isSystem))].
Proof.
  intros Hparse.
  rewrite (urls_sent_wrapper client (deleteMetadata client href key isSystem)).
  - apply urls_deleteMetadata, Hparse.
  - apply waits_on_request, deleteMetadata_sends_once.
Qed.

Lemma urls_getMetadataByKey client href key isSystem s :
  urls (sent (getMetadataByKey client href key isSystem) s)
  = [href +:+ key_suffix key isSystem].
Proof.
  rewrite (sent_log _ _ _ (log_getMetadataByKey _ _ _ _ _)).
  unfold urls, key_suffix; simpl. rewrite read_url_suffix. reflexivity.
Qed.

Lemma urls_getMetadata client href s :
  urls (sent (getMetadata client href) s) = [href +:+ "/metadata/"].
Proof. rewrite (sent_log _ _ _ (log_getMetadata _ _ _)). reflexivity. Qed.

Lemma prints_plainly_parsed href suffix :
  prints_plainly href suffix ->
  exists u, urlParseRequestURI href = Some u
            /\ URL_String (URL.add_Path u suffix) = href +:+ suffix.
Proof.
  unfold prints_plainly, endpoint.
  destruct (urlParseRequestURI href) as [u|]; [|discriminate].
  intros H. injection H as H. eauto.
Qed.


(** ** The error that [addMetadata] returns *)

(** The task and error of [addMetadata] are those of its request, except
    that an error whose text ends in "visibility" is replaced by a fresh
    one; the place of that text meant for the domain holds the
    visibility that was sent. *)
Lemma addMetadata_error_translation
    client href key value typedValue visibility isSystem s r :
  sent (addMetadata client href key value typedValue visibility isSystem) s
  = [call_ExecuteTaskRequest client r] ->
  result (addMetadata client href key value typedValue visibility isSystem) s
  = returned
      (fst (fst (serve_ExecuteTaskRequest client r (world s))),
       match snd (fst (serve_ExecuteTaskRequest client r (world s))) with
       | Some e =>
           if strings.HasSuffix (Error e) "visibility"
           then Some (fmt_error
                        ("error adding metadata with key " +:+ key
                         +:+ ": visibility cannot be " +:+ visibility
                         +:+ " when domain is "
                         +:+ (if isSystem then visibility
                              else MetadataReadWriteVisibility)
                         +:+ ": " +:+ Error e))
           else Some e
       | None => None
       end).
Proof.
  destruct (urlParseRequestURI href) as [u|] eqn:Hparse.
  - rewrite (sent_log _ _ _ (log_addMetadata _ _ _ _ _ _ _ _ _ Hparse)).
    intros Hr. injection Hr as <-.
    unfold result. rewrite (run_addMetadata _ _ _ _ _ _ _ _ _ Hparse).
    reflexivity.
  - rewrite (sent_nothing _ _ _
               (run_addMetadata_nil _ _ _ _ _ _ _ _ Hparse)).
    discriminate.
Qed.

(** The fresh error names the key and the requested visibility and ends
    with the text of the error it replaces. *)
Lemma addMetadata_Errorf_mentions key visibility domain e :
  strings.Contains (Error (addMetadata_Errorf key visibility domain e)) key
  = true
  /\ strings.Contains (Error (addMetadata_Errorf key visibility domain e))
       visibility = true
  /\ strings.Contains (Error (addMetadata_Errorf key visibility domain e))
       (Error e) = true.
Proof.
  unfold addMetadata_Errorf, Error at 1 3 5. repeat split.
  - apply Contains_infix.
  - do 2 apply Contains_append_r. apply Contains_infix.
  - do 7 apply Contains_append_r. apply Contains_prefix, prefix_refl.
Qed.

(** ** The claims about the generic functions *)

(** C2 (amended).  For every href that [urlParseRequestURI] accepts:
    with [isSystem = false], [addMetadata] sends exactly one request, a
    PUT to the parsed href with "/metadata/<key>" appended to its path,
    carrying domain "GENERAL" and the read-write visibility, whatever
    visibility was asked for. *)
Theorem addMetadata_general_request
    (client : Client) (href : string) (u : URL.t)
    (key value typedValue visibility : string) (s : State) :
  urlParseRequestURI href = Some u ->
  sent (addMetadata client href key value typedValue visibility false) s
  = [call_ExecuteTaskRequest client
       {| pathURL :=
            URL_String
              {| URL.Scheme := URL.Scheme u;
                 URL.Host := URL.Host u;
                 URL.Path := URL.Path u +:+ "/metadata/" +:+ key;
                 URL.RawQuery := URL.RawQuery u |};
          requestType := "PUT";
          contentType := MimeMetaDataValue;
          errorMessage := "error adding metadata: %s";
          payload :=
            payload_MetadataValue
              {| MetadataValue.Xmlns := XMLNamespaceVCloud;
                 MetadataValue.Xsi := XMLNamespaceXSI;
                 MetadataValue.TypedValue :=
                   Some {| MetadataTypedValue.XsiType := typedValue;
                           MetadataTypedValue.Value := value |};
                 MetadataValue.Domain :=
                   Some {| MetadataDomainTag.Visibility :=
                             MetadataReadWriteVisibility;
                           MetadataDomainTag.Domain := "GENERAL" |} |} |}].
Proof.
  intros Hparse. apply sent_log.
  rewrite (log_addMetadata _ _ _ _ _ _ _ _ _ Hparse). reflexivity.
Qed.

(** C3 (amended).  For every href that [urlParseRequestURI] accepts:
    with [isSystem = true], [addMetadata] sends exactly one request, a
    PUT to the parsed href with "/metadata/SYSTEM/<key>" appended to its
    path, carrying domain "SYSTEM" and the visibility the caller asked
    for, as it was given. *)
Theorem addMetadata_system_request
    (client : Client) (href : string) (u : URL.t)
    (key value typedValue visibility : string) (s : State) :
  urlParseRequestURI href = Some u ->
  sent (addMetadata client href key value typedValue visibility true) s
  = [call_ExecuteTaskRequest client
       {| pathURL :=
            URL_String
              {| URL.Scheme := URL.Scheme u;
                 URL.Host := URL.Host u;
                 URL.Path := URL.Path u +:+ "/metadata/SYSTEM/" +:+ key;
                 URL.RawQuery := URL.RawQuery u |};
          requestType := "PUT";
          contentType := MimeMetaDataValue;
          errorMessage := "error adding metadata: %s";
          payload :=
            payload_MetadataValue
              {| MetadataValue.Xmlns := XMLNamespaceVCloud;
                 MetadataValue.Xsi := XMLNamespaceXSI;
                 MetadataValue.TypedValue :=
                   Some {| MetadataTypedValue.XsiType := typedValue;
                           MetadataTypedValue.Value := value |};
                 MetadataValue.Domain :=
                   Some {| MetadataDomainTag.Visibility := visibility;
                           MetadataDomainTag.Domain := "SYSTEM" |} |} |}].
Proof.
  intros Hparse. apply sent_log.
  rewrite (log_addMetadata _ _ _ _ _ _ _ _ _ Hparse). reflexivity.
Qed.

(** C6 (amended).  For every href that [urlParseRequestURI] accepts,
    [deleteMetadata] sends one DELETE with no body, to the URL built
    from the same parsed href and the same path suffix
    ("/metadata/SYSTEM/<key>" when [isSystem], "/metadata/<key>"
    otherwise) as the request of [addMetadata] for that href, key and
    flag. *)
Theorem deleteMetadata_request_mirrors_addMetadata
    (client : Client) (href : string) (u : URL.t) (key : string)
    (isSystem : bool) (value typedValue visibility : string) (s s' : State) :
  urlParseRequestURI href = Some u ->
  sent (deleteMetadata client href key isSystem) s
  = [call_ExecuteTaskRequest client
       {| pathURL :=
            URL_String
              {| URL.Scheme := URL.Scheme u;
                 URL.Host := URL.Host u;
                 URL.Path :=
                   URL.Path u
                   +:+ (if isSystem then "/metadata/SYSTEM/" +:+ key
                        else "/metadata/" +:+ key);
                 URL.RawQuery := URL.RawQuery u |};
          requestType := "DELETE";
          contentType := EmptyString;
          errorMessage := "error deleting metadata: %s";
          payload := payload_nil |}]
  /\ urls (sent (deleteMetadata client href key isSystem) s)
     = urls (sent (addMetadata client href key value typedValue visibility
                     isSystem) s').
Proof.
  intros Hparse.
  rewrite (sent_log _ _ _ (log_deleteMetadata _ _ _ _ _ _ Hparse)).
  rewrite (sent_log _ _ _ (log_addMetadata _ _ _ _ _ _ _ _ _ Hparse)).
  split; reflexivity.
Qed.

(** C7.  Each "AndWait" wrapper, when the function it wraps returns, has
    sent the one request of that function; if the request failed, the
    wrapper returns its error as it is and calls nothing else; if it
    succeeded, the wrapper is exactly one wait on the returned task,
    whose result it returns.  (When the wrapped function panics, nothing
    was sent and the wrapper panics with it.) *)
Theorem AndWait_wrappers_wait_once (client : Client) :
  (forall requestUri key value typedValue visibility isSystem,
      waits_on client
        (addMetadata client requestUri key value typedValue visibility
           isSystem)
        (addMetadataAndWait client requestUri key value typedValue visibility
           isSystem))
  /\ (forall requestUri metadata,
         waits_on client
           (mergeAllMetadata client requestUri metadata)
           (mergeMetadataAndWait client requestUri metadata))
  /\ (forall requestUri key isSystem,
         waits_on client
           (deleteMetadata client requestUri key isSystem)
           (deleteMetadataAndWait client requestUri key isSystem)).
Proof.
  split; [|split]; intros.
  - apply waits_on_request, addMetadata_sends_once.
  - apply waits_on_request, mergeAllMetadata_sends_once.
  - apply waits_on_request, deleteMetadata_sends_once.
Qed.

(** C4 (amended).  For every href that [urlParseRequestURI] accepts and
    every map, [mergeAllMetadata] sends one POST to the parsed href with
    "/metadata" appended to its path (no key segment).  The entries of
    its payload are, up to order, one per item of the map: as many as
    the map has items, no key twice, every item present with its own
    typed value and domain, and nothing else. *)
Theorem mergeAllMetadata_request
    (client : Client) (href : string) (u : URL.t)
    (metadata : gmap string MetadataValue.t) (s : State) :
  urlParseRequestURI href = Some u ->
  exists entries : list MetadataEntry.t,
    sent (mergeAllMetadata client href metadata) s
    = [call_ExecuteTaskRequest client
         {| pathURL :=
              URL_String
                {| URL.Scheme := URL.Scheme u;
                   URL.Host := URL.Host u;
                   URL.Path := URL.Path u +:+ "/metadata";
                   URL.RawQuery := URL.RawQuery u |};
            requestType := "POST";
            contentType := MimeMetaData;
            errorMessage := "error adding metadata: %s";
            payload :=
              payload_Metadata
                {| Metadata.Xmlns := XMLNamespaceVCloud;
                   Metadata.Xsi := XMLNamespaceXSI;
                   Metadata.MetadataEntry := entries |} |}]
    /\ entries ≡ₚ merged_entry <$> map_to_list metadata
    /\ length entries = size metadata
    /\ NoDup (MetadataEntry.Key <$> entries)
    /\ (forall key value,
           metadata !! key = Some value ->
           exists e, e ∈ entries
                     /\ MetadataEntry.Key e = key
                     /\ MetadataEntry.TypedValue e
                        = MetadataValue.TypedValue value
                     /\ MetadataEntry.Domain e = MetadataValue.Domain value)
    /\ (forall e,
           e ∈ entries ->
           exists value,
             metadata !! MetadataEntry.Key e = Some value
             /\ MetadataEntry.TypedValue e = MetadataValue.TypedValue value
             /\ MetadataEntry.Domain e = MetadataValue.Domain value).
Proof.
  intros Hparse.
  exists (merged_entry <$> maprange metadata (world s)).
  pose proof (maprange_Permutation metadata (world s)) as Hperm.
  split.
  { apply sent_log. rewrite (log_mergeAllMetadata _ _ _ _ _ Hparse).
    reflexivity. }
  split; [rewrite Hperm; reflexivity|].
  split; [rewrite Hperm, length_fmap; apply length_map_to_list|].
  split.
  { rewrite <- list_fmap_compose.
    change (MetadataEntry.Key ∘ merged_entry) with (@fst string MetadataValue.t).
    rewrite Hperm. apply NoDup_fst_map_to_list. }
  split.
  - intros key value Hkey. exists (merged_entry (key, value)).
    split; [|repeat split].
    apply list_elem_of_fmap. exists (key, value). split; [reflexivity|].
    rewrite Hperm. apply elem_of_map_to_list, Hkey.
  - intros e He. apply list_elem_of_fmap in He as [[key value] [-> Hin]].
    exists value. split; [|split; reflexivity].
    rewrite Hperm in Hin. apply elem_of_map_to_list in Hin. exact Hin.
Qed.

(** C9 (amended).  For every href that [urlParseRequestURI] accepts and
    the empty map, [mergeAllMetadata] still sends the POST, with a
    payload that has no entries, and returns the task and error that
    this request produced. *)
Theorem mergeAllMetadata_empty
    (client : Client) (href : string) (u : URL.t) (s : State) :
  urlParseRequestURI href = Some u ->
  let r :=
    {| pathURL :=
         URL_String
           {| URL.Scheme := URL.Scheme u;
              URL.Host := URL.Host u;
              URL.Path := URL.Path u +:+ "/metadata";
              URL.RawQuery := URL.RawQuery u |};
       requestType := "POST";
       contentType := MimeMetaData;
       errorMessage := "error adding metadata: %s";
       payload :=
         payload_Metadata
           {| Metadata.Xmlns := XMLNamespaceVCloud;
              Metadata.Xsi := XMLNamespaceXSI;
              Metadata.MetadataEntry := [] |} |} in
  sent (mergeAllMetadata client href ∅) s = [call_ExecuteTaskRequest client r]
  /\ result (mergeAllMetadata client href ∅) s
     = returned (fst (serve_ExecuteTaskRequest client r (world s))).
Proof.
  intros Hparse r.
  assert (maprange ∅ (world s) = []) as Hnil.
  { apply Permutation_nil_r. rewrite maprange_Permutation.
    rewrite map_to_list_empty. reflexivity. }
  split.
  - apply sent_log. rewrite (log_mergeAllMetadata _ _ _ _ _ Hparse), Hnil.
    reflexivity.
  - unfold result.
    rewrite (run_mergeAllMetadata _ _ _ _ _ Hparse), run_ExecuteTaskRequest,
      Hnil.
    reflexivity.
Qed.

(** C10.  Every payload that [addMetadata] or [mergeAllMetadata] sends
    carries the two namespace declarations: when the href is accepted,
    the one request of [addMetadata] holds a value with both, and the
    one request of [mergeAllMetadata] holds a collection with both whose
    every entry has both; when it is not, nothing is sent. *)
Theorem write_payloads_declare_namespaces (client : Client) :
  (forall href key value typedValue visibility isSystem s,
      match urlParseRequestURI href with
      | Some _ =>
          exists r v,
            sent (addMetadata client href key value typedValue visibility
                    isSystem) s
            = [call_ExecuteTaskRequest client r]
            /\ payload r = payload_MetadataValue v
            /\ MetadataValue.Xmlns v = XMLNamespaceVCloud
            /\ MetadataValue.Xsi v = XMLNamespaceXSI
      | None =>
          sent (addMetadata client href key value typedValue visibility
                  isSystem) s = []
      end)
  /\ (forall href metadata s,
         match urlParseRequestURI href with
         | Some _ =>
             exists r m,
               sent (mergeAllMetadata client href metadata) s
               = [call_ExecuteTaskRequest client r]
               /\ payload r = payload_Metadata m
               /\ Metadata.Xmlns m = XMLNamespaceVCloud
               /\ Metadata.Xsi m = XMLNamespaceXSI
               /\ length (Metadata.MetadataEntry m) = size metadata
               /\ Forall (fun e =>
                            MetadataEntry.Xmlns e = XMLNamespaceVCloud
                            /\ MetadataEntry.Xsi e = XMLNamespaceXSI)
                    (Metadata.MetadataEntry m)
         | None => sent (mergeAllMetadata client href metadata) s = []
         end).
Proof.
  split.
  - intros. destruct (urlParseRequestURI href) as [u|] eqn:Hparse.
    + eexists _, _.
      split; [apply sent_log, (log_addMetadata _ _ _ _ _ _ _ _ _ Hparse)|].
      repeat split.
    + apply (sent_nothing _ _ panicked), run_addMetadata_nil, Hparse.
  - intros. destruct (urlParseRequestURI href) as [u|] eqn:Hparse.
    + eexists _, _.
      split; [apply sent_log, (log_mergeAllMetadata _ _ _ _ _ Hparse)|].
      split; [reflexivity|]. split; [reflexivity|]. split; [reflexivity|].
      simpl. split.
      * rewrite length_fmap, maprange_Permutation. apply length_map_to_list.
      * apply Forall_fmap, Forall_forall. intros item _. split; reflexivity.
    + apply (sent_nothing _ _ panicked), run_mergeAllMetadata_nil, Hparse.
Qed.

(** ** The claims about the per-resource methods *)



End Properties.

(** * Runs against the concrete director *)

(** C1, at the request of the spec's own scenario: a SYSTEM entry
    "secret" asked for with READWRITE visibility, which the director
    rejects with a text that ends in "visibility".  The error that comes
    back names the key and the visibility, and puts the visibility
    again where the domain was meant to go: neither "SYSTEM" nor
    "GENERAL" occurs in it. *)
Theorem addMetadata_visibility_error_names_no_domain :
  result (addMetadata (Ext := Sample.director) tt "/api/vApp/vapp-1" "secret"
            "x" "MetadataStringValue" "READWRITE" true) Sample.start
  = returned
      (0,
       Some (fmt_error
               "error adding metadata with key secret: visibility cannot be READWRITE when domain is READWRITE: error adding metadata: API Error: 500: [ 4f1c ] visibility"))
  /\ strings.Contains
       "error adding metadata with key secret: visibility cannot be READWRITE when domain is READWRITE: error adding metadata: API Error: 500: [ 4f1c ] visibility"
       "SYSTEM" = false
  /\ strings.Contains
       "error adding metadata with key secret: visibility cannot be READWRITE when domain is READWRITE: error adding metadata: API Error: 500: [ 4f1c ] visibility"
       "GENERAL" = false.
Proof. repeat split; vm_compute; reflexivity. Qed.

(** C2 as first stated fails at the empty href, which is not accepted:
    the run panics and no PUT is sent. *)
Lemma addMetadata_general_request_counterexample :
  result (addMetadata (Ext := Sample.director) tt EmptyString "env" "prod"
            "MetadataStringValue" "READWRITE" false) Sample.start
  = panicked
  /\ sent (addMetadata (Ext := Sample.director) tt EmptyString "env" "prod"
             "MetadataStringValue" "READWRITE" false) Sample.start
     = [].
Proof. split; reflexivity. Qed.

(** C2 (amended) at a vApp, with a visibility other than read-write. *)
Lemma addMetadata_general_request_witness :
  sent (addMetadata (Ext := Sample.director) tt "/api/vApp/vapp-1" "env"
          "prod" "MetadataStringValue" "PRIVATE" false) Sample.start
  = [call_ExecuteTaskRequest (Ext := Sample.director) tt
       {| pathURL := "/api/vApp/vapp-1/metadata/env";
          requestType := "PUT";
          contentType := "application/vnd.vmware.vcloud.metadata.value+xml";
          errorMessage := "error adding metadata: %s";
          payload :=
            payload_MetadataValue
              {| MetadataValue.Xmlns := "http://www.vmware.com/vcloud/v1.5";
                 MetadataValue.Xsi :=
                   "http://www.w3.org/2001/XMLSchema-instance";
                 MetadataValue.TypedValue :=
                   Some {| MetadataTypedValue.XsiType := "MetadataStringValue";
                           MetadataTypedValue.Value := "prod" |};
                 MetadataValue.Domain :=
                   Some {| MetadataDomainTag.Visibility := "READWRITE";
                           MetadataDomainTag.Domain := "GENERAL" |} |} |}].
Proof.
  exact (addMetadata_general_request (Ext := Sample.director) tt
           "/api/vApp/vapp-1" _ "env" "prod" "MetadataStringValue" "PRIVATE"
           Sample.start eq_refl).
Defined.

(** C3 as first stated fails at the empty href: the run panics and no
    PUT is sent. *)
Lemma addMetadata_system_request_counterexample :
  result (addMetadata (Ext := Sample.director) tt EmptyString "owner" "ops"
            "MetadataStringValue" "PRIVATE" true) Sample.start
  = panicked
  /\ sent (addMetadata (Ext := Sample.director) tt EmptyString "owner" "ops"
             "MetadataStringValue" "PRIVATE" true) Sample.start
     = [].
Proof. split; reflexivity. Qed.

(** C3 (amended) at a vApp. *)
Lemma addMetadata_system_request_witness :
  sent (addMetadata (Ext := Sample.director) tt "/api/vApp/vapp-1" "owner"
          "ops" "MetadataStringValue" "PRIVATE" true) Sample.start
  = [call_ExecuteTaskRequest (Ext := Sample.director) tt
       {| pathURL := "/api/vApp/vapp-1/metadata/SYSTEM/owner";
          requestType := "PUT";
          contentType := "application/vnd.vmware.vcloud.metadata.value+xml";
          errorMessage := "error adding metadata: %s";
          payload :=
            payload_MetadataValue
              {| MetadataValue.Xmlns := "http://www.vmware.com/vcloud/v1.5";
                 MetadataValue.Xsi :=
                   "http://www.w3.org/2001/XMLSchema-instance";
                 MetadataValue.TypedValue :=
                   Some {| MetadataTypedValue.XsiType := "MetadataStringValue";
                           MetadataTypedValue.Value := "ops" |};
                 MetadataValue.Domain :=
                   Some {| MetadataDomainTag.Visibility := "PRIVATE";
                           MetadataDomainTag.Domain := "SYSTEM" |} |} |}].
Proof.
  exact (addMetadata_system_request (Ext := Sample.director) tt
           "/api/vApp/vapp-1" _ "owner" "ops" "MetadataStringValue" "PRIVATE"
           Sample.start eq_refl).
Defined.

(** C4 as first stated fails at the empty href: the run panics after
    the entries were built, and no POST is sent. *)
Lemma mergeAllMetadata_request_counterexample :
  result (mergeAllMetadata (Ext := Sample.director) tt EmptyString
            Sample.two_items) Sample.start
  = panicked
  /\ sent (mergeAllMetadata (Ext := Sample.director) tt EmptyString
             Sample.two_items) Sample.start
     = [].
Proof. split; reflexivity. Qed.

(** C4 (amended) at a vDC and a map with two items, one of each
    domain. *)
Lemma mergeAllMetadata_request_witness :
  exists entries : list MetadataEntry.t,
    length entries = 2
    /\ exists e,
         e ∈ entries
         /\ MetadataEntry.Key e = "env"
         /\ MetadataEntry.TypedValue e
            = Some {| MetadataTypedValue.XsiType := "MetadataStringValue";
                      MetadataTypedValue.Value := "prod" |}
         /\ MetadataEntry.Domain e
            = Some {| MetadataDomainTag.Visibility := "READWRITE";
                      MetadataDomainTag.Domain := "GENERAL" |}.
Proof.
  destruct (mergeAllMetadata_request (Ext := Sample.director) tt "/api/vdc/7"
              _ Sample.two_items Sample.start eq_refl)
    as (entries & _ & _ & Hlength & _ & Hitem & _).
  exists entries. split.
  - rewrite Hlength. vm_compute. reflexivity.
  - apply (Hitem "env" Sample.env_prod). vm_compute. reflexivity.
Defined.

(** C6 as first stated fails at the empty href: the run panics and no
    DELETE is sent. *)
Lemma deleteMetadata_request_mirrors_addMetadata_counterexample :
  result (deleteMetadata (Ext := Sample.director) tt EmptyString "env" false)
    Sample.start
  = panicked
  /\ sent (deleteMetadata (Ext := Sample.director) tt EmptyString "env" false)
       Sample.start
     = [].
Proof. split; reflexivity. Qed.

(** C6 (amended) at a vApp. *)
Lemma deleteMetadata_request_mirrors_addMetadata_witness :
  sent (deleteMetadata (Ext := Sample.director) tt "/api/vApp/vapp-1" "owner"
          true) Sample.start
  = [call_ExecuteTaskRequest (Ext := Sample.director) tt
       {| pathURL := "/api/vApp/vapp-1/metadata/SYSTEM/owner";
          requestType := "DELETE";
          contentType := EmptyString;
          errorMessage := "error deleting metadata: %s";
          payload := payload_nil |}]
  /\ urls (sent (deleteMetadata (Ext := Sample.director) tt
                   "/api/vApp/vapp-1" "owner" true) Sample.start)
     = urls (sent (addMetadata (Ext := Sample.director) tt
                     "/api/vApp/vapp-1" "owner" "ops" "MetadataStringValue"
                     "PRIVATE" true) Sample.start).
Proof.
  exact (deleteMetadata_request_mirrors_addMetadata (Ext := Sample.director)
           tt "/api/vApp/vapp-1" _ "owner" true "ops" "MetadataStringValue"
           "PRIVATE" Sample.start Sample.start eq_refl).
Defined.

(** C9 as first stated fails at the empty href: with the empty map too
    the run panics, no POST is sent and nothing is returned. *)
Lemma mergeAllMetadata_empty_counterexample :
  result (mergeAllMetadata (Ext := Sample.director) tt EmptyString ∅)
    Sample.start
  = panicked
  /\ sent (mergeAllMetadata (Ext := Sample.director) tt EmptyString ∅)
       Sample.start
     = [].
Proof. split; reflexivity. Qed.

(** C9 (amended) at a vDC. *)
Lemma mergeAllMetadata_empty_witness :
  sent (mergeAllMetadata (Ext := Sample.director) tt "/api/vdc/7" ∅)
    Sample.start
  = [call_ExecuteTaskRequest (Ext := Sample.director) tt
       {| pathURL := "/api/vdc/7/metadata";
          requestType := "POST";
          contentType := "application/vnd.vmware.vcloud.metadata+xml";
          errorMessage := "error adding metadata: %s";
          payload :=
            payload_Metadata
              {| Metadata.Xmlns := "http://www.vmware.com/vcloud/v1.5";
                 Metadata.Xsi := "http://www.w3.org/2001/XMLSchema-instance";
                 Metadata.MetadataEntry := [] |} |}]
  /\ result (mergeAllMetadata (Ext := Sample.director) tt "/api/vdc/7" ∅)
       Sample.start
     = returned (1, None).
Proof.
  exact (mergeAllMetadata_empty (Ext := Sample.director) tt "/api/vdc/7" _
           Sample.start eq_refl).
Defined.





(** * Further properties of the layer *)

Section ReadProperties.

Context `{Ext : External}.

Lemma run_getMetadataByKey client href key isSystem s :
  getMetadataByKey client href key isSystem s
  = ExecuteRequest_MetadataValue client (href +:+ key_suffix key isSystem)
      http.MethodGet MimeMetaData
      ("error retrieving metadata by key " +:+ key +:+ ": %s")
      payload_nil MetadataValue.zero s.
Proof.
  unfold key_suffix. rewrite <- read_url_suffix.
  unfold getMetadataByKey, bind, ret, ExecuteRequest_MetadataValue.
  destruct isSystem;
    destruct (serve_ExecuteRequest_MetadataValue _ _ _ _) as [[out err] w];
    reflexivity.
Qed.

Lemma run_getMetadata client href s :
  getMetadata client href s
  = ExecuteRequest_Metadata client (href +:+ "/metadata/") http.MethodGet
      MimeMetaData "error retrieving metadata: %s" payload_nil Metadata.zero s.
Proof.
  unfold getMetadata, bind, ret, ExecuteRequest_Metadata.
  destruct (serve_ExecuteRequest_Metadata _ _ _ _) as [[out err] w].
  reflexivity.
Qed.

(** X1.  [getMetadataByKey] sends one GET with no body to the href
    followed by "/metadata/<key>" or "/metadata/SYSTEM/<key>", has the
    response decoded into a zero [MetadataValue], and returns the value
    and the error of that request as they come. *)
Theorem getMetadataByKey_request
    (client : Client) (href key : string) (isSystem : bool) (s : State) :
  let r :=
    {| pathURL :=
         href +:+ (if isSystem then "/metadata/SYSTEM/" +:+ key
                   else "/metadata/" +:+ key);
       requestType := "GET";
       contentType := MimeMetaData;
       errorMessage := "error retrieving metadata by key " +:+ key +:+ ": %s";
       payload := payload_nil |} in
  sent (getMetadataByKey client href key isSystem) s
  = [call_ExecuteRequest client r]
  /\ result (getMetadataByKey client href key isSystem) s
     = returned
         (fst (serve_ExecuteRequest_MetadataValue client r MetadataValue.zero
                 (world s))).
Proof.
  intros r. unfold sent, after, result. rewrite run_getMetadataByKey.
  unfold ExecuteRequest_MetadataValue, key_suffix. fold r.
  destruct (serve_ExecuteRequest_MetadataValue _ _ _ _) as [res w]; simpl.
  split; [apply drop_app_length | reflexivity].
Qed.

(** X2.  [getMetadata] sends one GET with no body to the href followed
    by "/metadata/", has the response decoded into a zero [Metadata],
    and returns the collection and the error of that request as they
    come. *)
Theorem getMetadata_request (client : Client) (href : string) (s : State) :
  let r :=
    {| pathURL := href +:+ "/metadata/";
       requestType := "GET";
       contentType := MimeMetaData;
       errorMessage := "error retrieving metadata: %s";
       payload := payload_nil |} in
  sent (getMetadata client href) s = [call_ExecuteRequest client r]
  /\ result (getMetadata client href) s
     = returned
         (fst (serve_ExecuteRequest_Metadata client r Metadata.zero
                 (world s))).
Proof.
  intros r. unfold sent, after, result. rewrite run_getMetadata.
  unfold ExecuteRequest_Metadata. fold r.
  destruct (serve_ExecuteRequest_Metadata _ _ _ _) as [res w]; simpl.
  split; [apply drop_app_length | reflexivity].
Qed.

(** X3.  When the URL helpers write the href and the key suffix back as
    they are, reading a key, adding it and deleting it address one and
    the same URL. *)
Theorem single_key_operations_share_url
    (client : Client) (href key : string) (isSystem : bool)
    (value typedValue visibility : string) (s1 s2 s3 : State) :
  prints_plainly href (key_suffix key isSystem) ->
  urls (sent (getMetadataByKey client href key isSystem) s1)
  = urls (sent (addMetadata client href key value typedValue visibility
                  isSystem) s2)
  /\ urls (sent (getMetadataByKey client href key isSystem) s1)
     = urls (sent (deleteMetadata client href key isSystem) s3).
Proof.
  intros Hplain. apply prints_plainly_parsed in Hplain as (u & Hparse & Hurl).
  rewrite urls_getMetadataByKey.
  rewrite (urls_addMetadata _ _ _ _ _ _ _ _ _ Hparse).
  rewrite (urls_deleteMetadata _ _ _ _ _ _ Hparse).
  rewrite Hurl. split; reflexivity.
Qed.

(** X4.  When the URL helpers write the href and "/metadata" back as
    they are, the URL that [getMetadata] reads is the URL that
    [mergeAllMetadata] posts to, followed by one more "/". *)
Theorem collection_read_url_is_merge_url_with_slash
    (client : Client) (href : string)
    (metadata : gmap string MetadataValue.t) (s1 s2 : State) :
  prints_plainly href "/metadata" ->
  urls (sent (getMetadata client href) s1)
  = (fun u => u +:+ "/")
      <$> urls (sent (mergeAllMetadata client href metadata) s2).
Proof.
  intros Hplain. apply prints_plainly_parsed in Hplain as (u & Hparse & Hurl).
  rewrite urls_getMetadata, (urls_mergeAllMetadata _ _ _ _ _ Hparse), Hurl.
  simpl. rewrite append_assoc. reflexivity.
Qed.

End ReadProperties.

Section WriteProperties.

Context `{Ext : External}.

(** X5.  For an href that [urlParseRequestURI] accepts, [addMetadata]
    returns the task of its one request.  A nil error stays nil; an
    error whose text does not end in "visibility" is returned as it is;
    an error whose text does is replaced by a fresh error whose text
    gives the key, the requested visibility, the visibility that was
    sent (in the place worded "domain") and the text of the error it
    replaces.  For an href that is not accepted, [addMetadata] panics
    and leaves the state as it was. *)
Theorem addMetadata_result
    (client : Client) (href key value typedValue visibility : string)
    (isSystem : bool) (s : State) :
  match urlParseRequestURI href with
  | Some _ =>
      exists r : Request,
        sent (addMetadata client href key value typedValue visibility
                isSystem) s
        = [call_ExecuteTaskRequest client r]
        /\ result (addMetadata client href key value typedValue visibility
                     isSystem) s
           = returned
               (fst (fst (serve_ExecuteTaskRequest client r (world s))),
                match
                  snd (fst (serve_ExecuteTaskRequest client r (world s)))
                with
                | Some e =>
                    if strings.HasSuffix (Error e) "visibility"
                    then Some (fmt_error
                                 ("error adding metadata with key " +:+ key
                                  +:+ ": visibility cannot be " +:+ visibility
                                  +:+ " when domain is "
                                  +:+ (if isSystem then visibility
                                       else MetadataReadWriteVisibility)
                                  +:+ ": " +:+ Error e))
                    else Some e
                | None => None
                end)
  | None =>
      addMetadata client href key value typedValue visibility isSystem s
      = (panicked, s)
  end.
Proof.
  destruct (urlParseRequestURI href) as [u|] eqn:Hparse.
  - eexists. split.
    + apply sent_log, (log_addMetadata _ _ _ _ _ _ _ _ _ Hparse).
    + apply addMetadata_error_translation.
      apply sent_log, (log_addMetadata _ _ _ _ _ _ _ _ _ Hparse).
  - apply run_addMetadata_nil, Hparse.
Qed.

(** X6.  [addMetadata] replaces the error of its request exactly when
    the text of that error is some text followed by "visibility": such
    an error comes back as a [fmt.Errorf] value, every other error comes
    back as it is. *)
Theorem addMetadata_rewrites_visibility_suffix_only
    (client : Client) (href key value typedValue visibility : string)
    (isSystem : bool) (s : State) (r : Request) (task : Task) (e : error) :
  sent (addMetadata client href key value typedValue visibility isSystem) s
  = [call_ExecuteTaskRequest client r] ->
  fst (serve_ExecuteTaskRequest client r (world s)) = (task, Some e) ->
  ((exists p, Error e = p +:+ "visibility") ->
   result (addMetadata client href key value typedValue visibility isSystem) s
   = returned
       (task,
        Some (addMetadata_Errorf key visibility
                (if isSystem then visibility else MetadataReadWriteVisibility)
                e)))
  /\ (~ (exists p, Error e = p +:+ "visibility") ->
      result (addMetadata client href key value typedValue visibility
                isSystem) s
      = returned (task, Some e)).
Proof.
  intros Hsent Hserved.
  rewrite (addMetadata_error_translation _ _ _ _ _ _ _ _ _ Hsent), Hserved.
  simpl. split; intros Hsuffix.
  - apply HasSuffix_spec in Hsuffix. rewrite Hsuffix. reflexivity.
  - destruct (strings.HasSuffix (Error e) "visibility") eqn:Hhas;
      [|reflexivity].
    exfalso. apply Hsuffix, HasSuffix_spec, Hhas.
Qed.

(** X7.  When [addMetadata] replaces an error, the text of the new error
    contains the key, the requested visibility and the text of the
    replaced error, and it still ends in that text (so it still ends in
    "visibility"). *)
Theorem addMetadata_rewritten_error_keeps_context
    (client : Client) (href key value typedValue visibility : string)
    (isSystem : bool) (s : State) (r : Request) (task : Task) (e : error) :
  sent (addMetadata client href key value typedValue visibility isSystem) s
  = [call_ExecuteTaskRequest client r] ->
  fst (serve_ExecuteTaskRequest client r (world s)) = (task, Some e) ->
  strings.HasSuffix (Error e) "visibility" = true ->
  exists e',
    result (addMetadata client href key value typedValue visibility isSystem) s
    = returned (task, Some e')
    /\ strings.Contains (Error e') key = true
    /\ strings.Contains (Error e') visibility = true
    /\ strings.Contains (Error e') (Error e) = true
    /\ strings.HasSuffix (Error e') (Error e) = true
    /\ strings.HasSuffix (Error e') "visibility" = true.
Proof.
  intros Hsent Hserved Hsuffix.
  rewrite (addMetadata_error_translation _ _ _ _ _ _ _ _ _ Hsent), Hserved.
  simpl. rewrite Hsuffix.
  eexists. split; [reflexivity|].
  destruct (addMetadata_Errorf_mentions key visibility
              (if isSystem then visibility else MetadataReadWriteVisibility) e)
    as (Hkey & Hvis & Herr).
  split; [exact Hkey|]. split; [exact Hvis|]. split; [exact Herr|].
  simpl. split.
  - apply HasSuffix_spec. rewrite <- !append_assoc. eexists. reflexivity.
  - apply HasSuffix_spec in Hsuffix as [p Hp].
    apply HasSuffix_spec. rewrite Hp, <- !append_assoc. eexists. reflexivity.
Qed.

(** X8.  For an href that [urlParseRequestURI] accepts,
    [mergeAllMetadata] and [deleteMetadata] return the task and the
    error of their one request as they come: no error is replaced, also
    not one whose text ends in "visibility".  For an href that is not
    accepted they panic and leave the state as it was. *)
Theorem merge_and_delete_return_the_request_result (client : Client) :
  (forall href metadata s,
      match urlParseRequestURI href with
      | Some _ =>
          exists r,
            sent (mergeAllMetadata client href metadata) s
            = [call_ExecuteTaskRequest client r]
            /\ result (mergeAllMetadata client href metadata) s
               = returned (fst (serve_ExecuteTaskRequest client r (world s)))
      | None => mergeAllMetadata client href metadata s = (panicked, s)
      end)
  /\ (forall href key isSystem s,
         match urlParseRequestURI href with
         | Some _ =>
             exists r,
               sent (deleteMetadata client href key isSystem) s
               = [call_ExecuteTaskRequest client r]
               /\ result (deleteMetadata client href key isSystem) s
                  = returned
                      (fst (serve_ExecuteTaskRequest client r (world s)))
         | None => deleteMetadata client href key isSystem s = (panicked, s)
         end).
Proof.
  split; intros; destruct (urlParseRequestURI href) as [u|] eqn:Hparse.
  - eexists. split.
    + apply sent_log, (log_mergeAllMetadata _ _ _ _ _ Hparse).
    + unfold result.
      rewrite (run_mergeAllMetadata _ _ _ _ _ Hparse), run_ExecuteTaskRequest.
      reflexivity.
  - apply run_mergeAllMetadata_nil, Hparse.
  - eexists. split.
    + apply sent_log, (log_deleteMetadata _ _ _ _ _ _ Hparse).
    + unfold result.
      rewrite (run_deleteMetadata _ _ _ _ _ _ Hparse), run_ExecuteTaskRequest.
      reflexivity.
  - apply run_deleteMetadata_nil, Hparse.
Qed.

(** X14.  An href that [urlParseRequestURI] does not accept makes every
    write of the layer, asynchronous or waiting, panic before anything
    is sent and with the state as it was; the reads do not parse the
    href and send their GET all the same. *)
Theorem writes_panic_on_unparsed_href (client : Client) (href : string) :
  urlParseRequestURI href = None ->
  (forall key value typedValue visibility isSystem s,
      addMetadata client href key value typedValue visibility isSystem s
      = (panicked, s)
      /\ addMetadataAndWait client href key value typedValue visibility
           isSystem s
         = (panicked, s))
  /\ (forall metadata s,
         mergeAllMetadata client href metadata s = (panicked, s)
         /\ mergeMetadataAndWait client href metadata s = (panicked, s))
  /\ (forall key isSystem s,
         deleteMetadata client href key isSystem s = (panicked, s)
         /\ deleteMetadataAndWait client href key isSystem s = (panicked, s))
  /\ (forall key isSystem s,
         exists r,
           sent (getMetadataByKey client href key isSystem) s
           = [call_ExecuteRequest client r])
  /\ (forall s,
         exists r,
           sent (getMetadata client href) s = [call_ExecuteRequest client r]).
Proof.
  intros Hparse. split; [|split; [|split; [|split]]]; intros.
  - split; [apply run_addMetadata_nil, Hparse|].
    unfold addMetadataAndWait, bind.
    rewrite (run_addMetadata_nil _ _ _ _ _ _ _ _ Hparse). reflexivity.
  - split; [apply run_mergeAllMetadata_nil, Hparse|].
    unfold mergeMetadataAndWait, bind.
    rewrite (run_mergeAllMetadata_nil _ _ _ _ Hparse). reflexivity.
  - split; [apply run_deleteMetadata_nil, Hparse|].
    unfold deleteMetadataAndWait, bind.
    rewrite (run_deleteMetadata_nil _ _ _ _ _ Hparse). reflexivity.
  - eexists. apply sent_log, log_getMetadataByKey.
  - eexists. apply sent_log, log_getMetadata.
Qed.

End WriteProperties.

Section KeyProperties.

Context `{Ext : External}.


(** X13.  The empty key is not refused: reading it in the general domain
    addresses the URL of the whole collection, the one [getMetadata]
    reads; and when the URL helpers write the href and "/metadata/" back
    as they are, adding it sends the PUT to that URL too. *)
Theorem empty_key_addresses_the_collection
    (client : Client) (href : string) (s1 s2 s3 : State) :
  urls (sent (getMetadataByKey client href EmptyString false) s1)
  = urls (sent (getMetadata client href) s2)
  /\ (prints_plainly href "/metadata/" ->
      forall value typedValue visibility,
        urls (sent (addMetadata client href EmptyString value typedValue
                      visibility false) s3)
        = urls (sent (getMetadata client href) s2)).
Proof.
  rewrite urls_getMetadataByKey, urls_getMetadata.
  split; [reflexivity|].
  intros Hplain value typedValue visibility.
  apply prints_plainly_parsed in Hplain as (u & Hparse & Hurl).
  rewrite (urls_addMetadata _ _ _ _ _ _ _ _ _ Hparse).
  unfold key_suffix.
  change ("/metadata/" +:+ EmptyString) with "/metadata/".
  rewrite Hurl. reflexivity.
Qed.

End KeyProperties.

Section ResourceProperties.

Context `{OExt : OpenApiExternal}.

(** X9.  The synchronous methods that spell the wait out themselves
    (those of [VCDClient] and of [OpenApiOrgVdcNetwork]) behave as the
    "AndWait" wrappers do: when the request returns, one request was
    sent; on failure they return its error and call nothing else; on
    success they wait once on the returned task.  When the request
    panics (an href that is not accepted), nothing was sent and the
    method panics with it. *)
Theorem spelled_out_waits_wait_once :
  (forall vcdClient href key value typedValue visibility isSystem,
      waits_on (VCDClient.Client vcdClient)
        (VCDClient.AddMetadataEntryWithVisibilityByHrefAsync vcdClient href
           key value typedValue visibility isSystem)
        (VCDClient.AddMetadataEntryWithVisibilityByHref vcdClient href key
           value typedValue visibility isSystem))
  /\ (forall vcdClient href key isSystem,
         waits_on (VCDClient.Client vcdClient)
           (VCDClient.DeleteMetadataEntryWithDomainByHrefAsync vcdClient href
              key isSystem)
           (VCDClient.DeleteMetadataEntryWithDomainByHref vcdClient href key
              isSystem))
  /\ (forall network key value typedValue visibility isSystem,
         waits_on (OpenApiOrgVdcNetwork.client network)
           (addMetadata (OpenApiOrgVdcNetwork.client network)
              (URL_String (VCDHREF (OpenApiOrgVdcNetwork.client network))
               +:+ "/admin/network/"
               +:+ extractUuid (OpenApiOrgVdcNetwork.ID network))
              key value typedValue visibility isSystem)
           (OpenApiOrgVdcNetwork.AddMetadataEntryWithVisibility network key
              value typedValue visibility isSystem))
  /\ (forall network metadata,
         waits_on (OpenApiOrgVdcNetwork.client network)
           (mergeAllMetadata (OpenApiOrgVdcNetwork.client network)
              (URL_String (VCDHREF (OpenApiOrgVdcNetwork.client network))
               +:+ "/admin/network/"
               +:+ extractUuid (OpenApiOrgVdcNetwork.ID network))
              metadata)
           (OpenApiOrgVdcNetwork.MergeMetadataWithMetadataValues network
              metadata))
  /\ (forall network key isSystem,
         waits_on (OpenApiOrgVdcNetwork.client network)
           (deleteMetadata (OpenApiOrgVdcNetwork.client network)
              (URL_String (VCDHREF (OpenApiOrgVdcNetwork.client network))
               +:+ "/admin/network/"
               +:+ extractUuid (OpenApiOrgVdcNetwork.ID network))
              key isSystem)
           (OpenApiOrgVdcNetwork.DeleteMetadataEntryWithDomain network key
              isSystem)).
Proof.
  repeat apply conj; intros; apply waits_on_request.
  - apply addMetadata_sends_once.
  - apply deleteMetadata_sends_once.
  - apply addMetadata_sends_once.
  - apply mergeAllMetadata_sends_once.
  - apply deleteMetadata_sends_once.
Qed.

(** X10.  [OpenApiOrgVdcNetwork] reads under
    "<base>/network/<uuid>" and, when [urlParseRequestURI] accepts it,
    writes under "<base>/admin/network/<uuid>", with <base> the
    client's base URL and <uuid> taken from the network's ID.  So a read
    and a write of one key never address the same URL (when the URL
    helpers write the admin href and the suffix back as they are). *)
Theorem OpenApiOrgVdcNetwork_reads_and_writes_differ
    (network : OpenApiOrgVdcNetwork.t) (key : string) (isSystem : bool)
    (ua : URL.t) :
  let base := URL_String (VCDHREF (OpenApiOrgVdcNetwork.client network)) in
  let uuid := extractUuid (OpenApiOrgVdcNetwork.ID network) in
  urlParseRequestURI (base +:+ "/admin/network/" +:+ uuid) = Some ua ->
  (forall s,
      urls (sent (OpenApiOrgVdcNetwork.GetMetadataByKey network key isSystem)
              s)
      = [(base +:+ "/network/" +:+ uuid) +:+ key_suffix key isSystem])
  /\ (forall s,
         urls (sent (OpenApiOrgVdcNetwork.GetMetadata network) s)
         = [(base +:+ "/network/" +:+ uuid) +:+ "/metadata/"])
  /\ (forall value typedValue visibility s,
         urls (sent (OpenApiOrgVdcNetwork.AddMetadataEntryWithVisibility
                       network key value typedValue visibility isSystem) s)
         = [URL_String (URL.add_Path ua (key_suffix key isSystem))])
  /\ (forall metadata s,
         urls (sent (OpenApiOrgVdcNetwork.MergeMetadataWithMetadataValues
                       network metadata) s)
         = [URL_String (URL.add_Path ua "/metadata")])
  /\ (forall s,
         urls (sent (OpenApiOrgVdcNetwork.DeleteMetadataEntryWithDomain
                       network key isSystem) s)
         = [URL_String (URL.add_Path ua (key_suffix key isSystem))])
  /\ (prints_plainly (base +:+ "/admin/network/" +:+ uuid)
        (key_suffix key isSystem) ->
      forall value typedValue visibility s1 s2 s3,
        urls (sent (OpenApiOrgVdcNetwork.GetMetadataByKey network key
                      isSystem) s1)
        <> urls (sent (OpenApiOrgVdcNetwork.AddMetadataEntryWithVisibility
                         network key value typedValue visibility isSystem) s2)
        /\ urls (sent (OpenApiOrgVdcNetwork.GetMetadataByKey network key
                         isSystem) s1)
           <> urls (sent (OpenApiOrgVdcNetwork.DeleteMetadataEntryWithDomain
                            network key isSystem) s3)).
Proof.
  intros base uuid Hparse.
  assert (forall s,
             urls (sent (OpenApiOrgVdcNetwork.GetMetadataByKey network key
                           isSystem) s)
             = [(base +:+ "/network/" +:+ uuid) +:+ key_suffix key isSystem])
    as Hread.
  { intros s. apply urls_getMetadataByKey. }
  assert (forall value typedValue visibility s,
             urls (sent (OpenApiOrgVdcNetwork.AddMetadataEntryWithVisibility
                           network key value typedValue visibility isSystem)
                     s)
             = [URL_String (URL.add_Path ua (key_suffix key isSystem))])
    as Hadd.
  { intros. apply (urls_then_wait_addMetadata _ _ _ _ _ _ _ _ _ Hparse). }
  assert (forall s,
             urls (sent (OpenApiOrgVdcNetwork.DeleteMetadataEntryWithDomain
                           network key isSystem) s)
             = [URL_String (URL.add_Path ua (key_suffix key isSystem))])
    as Hdelete.
  { intros. apply (urls_then_wait_deleteMetadata _ _ _ _ _ _ Hparse). }
  repeat apply conj.
  - exact Hread.
  - intros s. apply urls_getMetadata.
  - exact Hadd.
  - intros. apply (urls_then_wait_mergeAllMetadata _ _ _ _ _ Hparse).
  - exact Hdelete.
  - intros Hplain value typedValue visibility s1 s2 s3.
    unfold prints_plainly, endpoint in Hplain. rewrite Hparse in Hplain.
    injection Hplain as Hplain.
    rewrite Hread, Hadd, Hdelete, Hplain.
    split; intros Heq; injection Heq as Heq;
      apply append_inv_tail in Heq;
      exact (network_hrefs_differ _ _ Heq).
Qed.

(** X11.  For [AdminVdc], what the synchronous add writes is what
    [GetMetadataByKey] reads, but not what the synchronous delete
    removes: when [getAdminURL] changes the HREF (and both URLs are
    written as href followed by suffix), the delete of a key addresses
    another URL than the add and the read of that key. *)
Theorem AdminVdc_sync_delete_misses_what_add_wrote
    (adminVdc : AdminVdc.t) (key : string) (isSystem : bool)
    (value typedValue visibility : string) (s1 s2 s3 : State) :
  prints_plainly (getAdminURL (AdminVdc.HREF adminVdc))
    (key_suffix key isSystem) ->
  prints_plainly (AdminVdc.HREF adminVdc) (key_suffix key isSystem) ->
  getAdminURL (AdminVdc.HREF adminVdc) <> AdminVdc.HREF adminVdc ->
  urls (sent (AdminVdc.AddMetadataEntryWithVisibility adminVdc key value
                typedValue visibility isSystem) s1)
  = urls (sent (AdminVdc.GetMetadataByKey adminVdc key isSystem) s2)
  /\ urls (sent (AdminVdc.AddMetadataEntryWithVisibility adminVdc key value
                   typedValue visibility isSystem) s1)
     <> urls (sent (AdminVdc.DeleteMetadataEntryWithDomain adminVdc key
                      isSystem) s3).
Proof.
  intros Hadmin Hhref Hne.
  apply prints_plainly_parsed in Hadmin as (ua & Hparse_admin & Hurl_admin).
  apply prints_plainly_parsed in Hhref as (u & Hparse_href & Hurl_href).
  unfold AdminVdc.AddMetadataEntryWithVisibility, AdminVdc.GetMetadataByKey,
    AdminVdc.DeleteMetadataEntryWithDomain.
  change (addMetadataAndWait (AdminVdc.client adminVdc)
            (AdminVdc.HREF adminVdc) key value typedValue visibility isSystem)
    with (then_wait
            (addMetadata (AdminVdc.client adminVdc) (AdminVdc.HREF adminVdc)
               key value typedValue visibility isSystem)).
  change (deleteMetadataAndWait (AdminVdc.client adminVdc)
            (getAdminURL (AdminVdc.HREF adminVdc)) key isSystem)
    with (then_wait
            (deleteMetadata (AdminVdc.client adminVdc)
               (getAdminURL (AdminVdc.HREF adminVdc)) key isSystem)).
  rewrite (urls_then_wait_addMetadata _ _ _ _ _ _ _ _ _ Hparse_href).
  rewrite (urls_then_wait_deleteMetadata _ _ _ _ _ _ Hparse_admin).
  rewrite urls_getMetadataByKey, Hurl_admin, Hurl_href.
  split; [reflexivity|].
  intros Heq. injection Heq as Heq. apply Hne. symmetry.
  exact (append_inv_tail _ _ _ Heq).
Qed.

End ResourceProperties.

(** * Further runs against the concrete director *)

(** X3 at the vApp and key of the spec's first scenario. *)
Lemma single_key_operations_share_url_witness :
  urls (sent (getMetadataByKey (Ext := Sample.director) tt "/api/vApp/vapp-1"
                "env" false) Sample.start)
  = urls (sent (addMetadata (Ext := Sample.director) tt "/api/vApp/vapp-1"
                  "env" "prod" "MetadataStringValue" "READWRITE" false)
            Sample.start)
  /\ urls (sent (getMetadataByKey (Ext := Sample.director) tt
                   "/api/vApp/vapp-1" "env" false) Sample.start)
     = urls (sent (deleteMetadata (Ext := Sample.director) tt
                     "/api/vApp/vapp-1" "env" false) Sample.start).
Proof.
  apply (single_key_operations_share_url (Ext := Sample.director) tt
           "/api/vApp/vapp-1" "env" false).
  reflexivity.
Defined.

(** X4 at a vDC and a map of two items. *)
Lemma collection_read_url_is_merge_url_with_slash_witness :
  urls (sent (getMetadata (Ext := Sample.director) tt "/api/vdc/7")
          Sample.start)
  = (fun u => u +:+ "/")
      <$> urls (sent (mergeAllMetadata (Ext := Sample.director) tt
                        "/api/vdc/7" Sample.two_items) Sample.start).
Proof.
  apply (collection_read_url_is_merge_url_with_slash
           (Ext := Sample.director) tt "/api/vdc/7").
  reflexivity.
Defined.

(** X6 at the rejected request of the spec's last scenario. *)
Lemma addMetadata_rewrites_visibility_suffix_only_witness :
  result (addMetadata (Ext := Sample.director) tt "/api/vApp/vapp-1" "secret"
            "x" "MetadataStringValue" "READWRITE" true) Sample.start
  = returned
      (0,
       Some (addMetadata_Errorf "secret" "READWRITE" "READWRITE"
               (collaborator_error
                  "error adding metadata: API Error: 500: [ 4f1c ] visibility"))).
Proof.
  apply (proj1
           (addMetadata_rewrites_visibility_suffix_only
              (Ext := Sample.director) tt "/api/vApp/vapp-1" "secret" "x"
              "MetadataStringValue" "READWRITE" true Sample.start _ 0
              (collaborator_error
                 "error adding metadata: API Error: 500: [ 4f1c ] visibility")
              (sent_log _ _ _
                 (log_addMetadata (Ext := Sample.director) tt
                    "/api/vApp/vapp-1" _ "secret" "x" "MetadataStringValue"
                    "READWRITE" true Sample.start eq_refl))
              eq_refl)).
  exists "error adding metadata: API Error: 500: [ 4f1c ] ". reflexivity.
Defined.

(** X7 at the same rejected request. *)
Lemma addMetadata_rewritten_error_keeps_context_witness :
  exists e',
    result (addMetadata (Ext := Sample.director) tt "/api/vApp/vapp-1"
              "secret" "x" "MetadataStringValue" "READWRITE" true)
      Sample.start = returned (0, Some e')
    /\ strings.Contains (Error e') "secret" = true
    /\ strings.Contains (Error e') "READWRITE" = true
    /\ strings.Contains (Error e')
         "error adding metadata: API Error: 500: [ 4f1c ] visibility" = true
    /\ strings.HasSuffix (Error e')
         "error adding metadata: API Error: 500: [ 4f1c ] visibility" = true
    /\ strings.HasSuffix (Error e') "visibility" = true.
Proof.
  apply (addMetadata_rewritten_error_keeps_context
           (Ext := Sample.director) tt "/api/vApp/vapp-1" "secret" "x"
           "MetadataStringValue" "READWRITE" true Sample.start _ 0
           (collaborator_error
              "error adding metadata: API Error: 500: [ 4f1c ] visibility")
           (sent_log _ _ _
              (log_addMetadata (Ext := Sample.director) tt "/api/vApp/vapp-1"
                 _ "secret" "x" "MetadataStringValue" "READWRITE" true
                 Sample.start eq_refl))
           eq_refl).
  reflexivity.
Defined.

(** X10 at the network
    "urn:vcloud:network:6bc27a4e-3b1c-4f0e-9d2a-0123456789ab". *)
Lemma OpenApiOrgVdcNetwork_reads_and_writes_differ_witness :
  urls (sent (OpenApiOrgVdcNetwork.GetMetadataByKey
                (OExt := SampleOpenApi.director) SampleOpenApi.network "owner"
                true) Sample.start)
  <> urls (sent (OpenApiOrgVdcNetwork.AddMetadataEntryWithVisibility
                   (OExt := SampleOpenApi.director) SampleOpenApi.network
                   "owner" "ops" "MetadataStringValue" "PRIVATE" true)
             Sample.start)
  /\ urls (sent (OpenApiOrgVdcNetwork.GetMetadataByKey
                   (OExt := SampleOpenApi.director) SampleOpenApi.network
                   "owner" true) Sample.start)
     <> urls (sent (OpenApiOrgVdcNetwork.DeleteMetadataEntryWithDomain
                      (OExt := SampleOpenApi.director) SampleOpenApi.network
                      "owner" true) Sample.start).
Proof.
  apply (proj2 (proj2 (proj2 (proj2 (proj2
           (OpenApiOrgVdcNetwork_reads_and_writes_differ
              (OExt := SampleOpenApi.director) SampleOpenApi.network "owner"
              true _ eq_refl)))))).
  reflexivity.
Defined.

(** X11 at the vDC "/api/vdc/7". *)
Lemma AdminVdc_sync_delete_misses_what_add_wrote_witness :
  urls (sent (AdminVdc.AddMetadataEntryWithVisibility Sample.adminVdc "owner"
                "ops" "MetadataStringValue" "PRIVATE" true) Sample.start)
  = urls (sent (AdminVdc.GetMetadataByKey Sample.adminVdc "owner" true)
            Sample.start)
  /\ urls (sent (AdminVdc.AddMetadataEntryWithVisibility Sample.adminVdc
                   "owner" "ops" "MetadataStringValue" "PRIVATE" true)
             Sample.start)
     <> urls (sent (AdminVdc.DeleteMetadataEntryWithDomain Sample.adminVdc
                      "owner" true) Sample.start).
Proof.
  apply (AdminVdc_sync_delete_misses_what_add_wrote Sample.adminVdc "owner"
           true).
  - reflexivity.
  - reflexivity.
  - vm_compute. discriminate.
Defined.

(** X13 at a vApp. *)
Lemma empty_key_addresses_the_collection_witness :
  urls (sent (addMetadata (Ext := Sample.director) tt "/api/vApp/vapp-1"
                EmptyString "prod" "MetadataStringValue" "READWRITE" false)
          Sample.start)
  = urls (sent (getMetadata (Ext := Sample.director) tt "/api/vApp/vapp-1")
            Sample.start).
Proof.
  apply (proj2 (empty_key_addresses_the_collection (Ext := Sample.director)
                  tt "/api/vApp/vapp-1" Sample.start Sample.start
                  Sample.start)).
  reflexivity.
Defined.

(** X14 at the empty href. *)
Lemma writes_panic_on_unparsed_href_witness :
  deleteMetadata (Ext := Sample.director) tt EmptyString "env" false
    Sample.start
  = (panicked, Sample.start)
  /\ deleteMetadataAndWait (Ext := Sample.director) tt EmptyString "env" false
       Sample.start
     = (panicked, Sample.start).
Proof.
  apply (proj1 (proj2 (proj2
           (writes_panic_on_unparsed_href (Ext := Sample.director) tt
              EmptyString eq_refl)))).
Defined.
